(** * anemoi.training.diagnostics.mlflow.auth : the [TokenAuth] token lifecycle

    A shallow embedding of [src/anemoi/training/diagnostics/mlflow/auth.py].

    The class [TokenAuth] keeps a refresh token and an access token for a
    keycloak token server.  Its methods read the wall clock, post requests to
    the server, prompt the operator, write a configuration file, set an
    environment variable and log.  All of these are modelled as explicit
    components of a [World]; the instance ([self]) is a record that the
    methods update in place.  Methods are computations in a small state and
    exception monad [Py].

    Modelling conventions:
    - Python values are dynamically typed; the ones that flow through this
      module (JSON documents, tokens, timestamps) are embedded as [value].
    - Python floats are idealised as rationals ([Q]): rounding, infinities
      and NaN are not modelled.  [time.time()] returns the next reading of
      the world's clock.
    - [requests], [json.loads], [load_config]/[save_config], [input] and
      [getpass] are libraries outside this module; they are modelled by
      their observable behaviour on the [World].  The operator always
      answers a prompt and the store always accepts a write; the server may
      fail to answer. *)

From Stdlib Require Import ZArith QArith String Ascii List Bool Lia.
From stdpp Require Import base option gmap strings.

Set Warnings "-register-all".

Local Open Scope string_scope.
Local Open Scope Z_scope.

(** ** Python values *)

Inductive value : Type :=
| VNone
| VBool (b : bool)
| VInt (n : Z)
| VFloat (q : Q)
| VStr (s : string)
| VList (l : list value)
| VDict (d : list (string * value)).

(** A Python [dict] with string keys, as an association list. *)
Abbreviation dict := (list (string * value)).

(** Python truthiness: [bool(v)]. *)
Definition truthy (v : value) : bool :=
  match v with
  | VNone => false
  | VBool b => b
  | VInt n => negb (n =? 0)
  | VFloat q => negb (Qeq_bool q 0)
  | VStr s => negb (String.eqb s EmptyString)
  | VList l => match l with [] => false | _ => true end
  | VDict d => match d with [] => false | _ => true end
  end.

(** Numbers: [int], [float] and [bool] (a subclass of [int]). *)
Definition as_number (v : value) : option Q :=
  match v with
  | VBool b => Some (inject_Z (if b then 1 else 0))
  | VInt n => Some (inject_Z n)
  | VFloat q => Some q
  | _ => None
  end.

Definition Qltb (a b : Q) : bool := negb (Qle_bool b a).

(** [int(x)] on a float: truncation towards zero. *)
Definition py_int (x : Q) : Z := Z.quot (Qnum x) (Zpos (Qden x)).

(** [isinstance(v, str)]. *)
Definition is_str (v : value) : bool :=
  match v with VStr _ => true | _ => false end.

(** [v == s] for a string literal [s]. *)
Definition eq_str (v : value) (s : string) : bool :=
  match v with VStr t => String.eqb t s | _ => false end.

Fixpoint dict_lookup (k : string) (d : dict) : option value :=
  match d with
  | [] => None
  | (k', v) :: d' => if String.eqb k k' then Some v else dict_lookup k d'
  end.

(** ** Exceptions *)

Inductive PyExn : Type :=
| AssertionError (msg : string)
| RuntimeError (msg : string)
| TypeError
| ValueError
| KeyError (key : string)
| AttributeError
| JSONDecodeError
| HTTPError (status : Z)
| RequestException.

(** [isinstance(e, requests.exceptions.HTTPError)]. *)
Definition is_HTTPError (e : PyExn) : bool :=
  match e with HTTPError _ => true | _ => false end.

(** [d.get(k, default)]; anything but a [dict] has no attribute [get]. *)
Definition py_get (v : value) (k : string) (dflt : value) : PyExn + value :=
  match v with
  | VDict d => inr (default dflt (dict_lookup k d))
  | _ => inl AttributeError
  end.

(** [d[k]]. *)
Definition py_getitem (v : value) (k : string) : PyExn + value :=
  match v with
  | VDict d => match dict_lookup k d with
               | Some x => inr x
               | None => inl (KeyError k)
               end
  | _ => inl TypeError
  end.

(** [a > b] and [a < b] against a float. *)
Definition py_gt (a : value) (b : Q) : PyExn + bool :=
  match as_number a with
  | Some x => inr (Qltb b x)
  | None => inl TypeError
  end.

Definition py_lt (a : value) (b : Q) : PyExn + bool :=
  match as_number a with
  | Some x => inr (Qltb x b)
  | None => inl TypeError
  end.

(** [a * b] for a float [b]. *)
Definition py_mul_float (a : value) (b : Q) : PyExn + Q :=
  match as_number a with
  | Some x => inr (x * b)%Q
  | None => inl TypeError
  end.

(** ** The world outside the instance *)

Record Request : Type := mkRequest {
  req_url : string;
  req_headers : list (string * string);
  req_json : value
}.

(** What [requests.post] brings back: either it raises, or there is a
    response with a status code and a body that [response.json()] decodes
    ([None] when the body is not JSON). *)
Inductive Response : Type :=
| NoResponse
| HttpResponse (status_code : Z) (body : option value).

Inductive Level : Type := DEBUG | INFO | WARNING | ERROR.

Inductive LogRecord : Type :=
| LogMsg (lvl : Level) (msg : value)
| LogExn (lvl : Level) (prefix : string) (e : PyExn).

Inductive Prompt : Type :=
| Input (prompt : string)
| Getpass (prompt : string).

Record World : Type := mkWorld {
  (** [time.time()]: the readings of the clock, and how many were taken *)
  clock : nat -> Q;
  ticks : nat;
  (** the token server: its answer to the n-th request, and the requests sent *)
  server : nat -> Request -> Response;
  sent : list Request;
  (** the operator: the n-th line typed, and the prompts shown *)
  operator : nat -> string;
  prompts : list Prompt;
  (** the configuration store of [anemoi.utils.config] *)
  storage : gmap string dict;
  (** [os.environ] *)
  environ : gmap string string;
  (** the records emitted on [LOG] *)
  log : list LogRecord
}.

(** ** The instance *)

Record TokenAuth : Type := mkTokenAuth {
  url : string;
  refresh_expire_days : Z;
  enabled : bool;
  config_file : string;
  refresh_token : value;
  refresh_expires : value;
  access_token : value;
  access_expires : Q
}.

Record Sys : Type := mkSys { self : TokenAuth; world : World }.

(** ** The monad of methods: state and exceptions *)

Definition Py (A : Type) : Type := Sys -> (PyExn + A) * Sys.

#[global] Instance Py_ret : MRet Py := fun A a s => (inr a, s).
#[global] Instance Py_bind : MBind Py := fun A B f m s =>
  match m s with
  | (inr a, s') => f a s'
  | (inl e, s') => (inl e, s')
  end.

Definition raise {A} (e : PyExn) : Py A := fun s => (inl e, s).

Definition lift {A} (r : PyExn + A) : Py A := fun s => (r, s).

(** [try: m  except Exception as err: h err]. *)
Definition try_except {A} (m : Py A) (h : PyExn -> Py A) : Py A := fun s =>
  match m s with
  | (inr a, s') => (inr a, s')
  | (inl e, s') => h e s'
  end.

Definition getattr {A} (f : TokenAuth -> A) : Py A := fun s => (inr (f (self s)), s).

Definition modify_self (f : TokenAuth -> TokenAuth) : Py unit := fun s =>
  (inr tt, {| self := f (self s); world := world s |}).

Definition modify_world (f : World -> World) : Py unit := fun s =>
  (inr tt, {| self := self s; world := f (world s) |}).

Definition ask_world {A} (f : World -> A) : Py A := fun s => (inr (f (world s)), s).

(** ** Primitive effects *)

Definition set_ticks (n : nat) (w : World) : World :=
  {| clock := clock w; ticks := n; server := server w; sent := sent w;
     operator := operator w; prompts := prompts w; storage := storage w;
     environ := environ w; log := log w |}.

Definition set_sent (l : list Request) (w : World) : World :=
  {| clock := clock w; ticks := ticks w; server := server w; sent := l;
     operator := operator w; prompts := prompts w; storage := storage w;
     environ := environ w; log := log w |}.

Definition set_prompts (l : list Prompt) (w : World) : World :=
  {| clock := clock w; ticks := ticks w; server := server w; sent := sent w;
     operator := operator w; prompts := l; storage := storage w;
     environ := environ w; log := log w |}.

Definition set_storage (m : gmap string dict) (w : World) : World :=
  {| clock := clock w; ticks := ticks w; server := server w; sent := sent w;
     operator := operator w; prompts := prompts w; storage := m;
     environ := environ w; log := log w |}.

Definition set_environ (m : gmap string string) (w : World) : World :=
  {| clock := clock w; ticks := ticks w; server := server w; sent := sent w;
     operator := operator w; prompts := prompts w; storage := storage w;
     environ := m; log := log w |}.

Definition set_log (l : list LogRecord) (w : World) : World :=
  {| clock := clock w; ticks := ticks w; server := server w; sent := sent w;
     operator := operator w; prompts := prompts w; storage := storage w;
     environ := environ w; log := l |}.

(** [time.time()]: take the next reading of the clock. *)
Definition time_time : Py Q :=
  now ← ask_world (fun w => clock w (ticks w));
  modify_world (fun w => set_ticks (S (ticks w)) w);;
  mret now.

(** [LOG.debug], [LOG.info], [LOG.warning], [LOG.error]. *)
Definition LOG_emit (r : LogRecord) : Py unit :=
  modify_world (fun w => set_log (log w ++ [r]) w).

Definition LOG_debug (msg : string) : Py unit := LOG_emit (LogMsg DEBUG (VStr msg)).
Definition LOG_info (msg : string) : Py unit := LOG_emit (LogMsg INFO (VStr msg)).
Definition LOG_warning (msg : value) : Py unit := LOG_emit (LogMsg WARNING msg).
Definition LOG_error (prefix : string) (e : PyExn) : Py unit :=
  LOG_emit (LogExn ERROR prefix e).

(** [input(prompt)] and [getpass(prompt)]: show the prompt, read the
    operator's next line. *)
Definition read_operator (p : Prompt) : Py string :=
  line ← ask_world (fun w => operator w (length (prompts w)));
  modify_world (fun w => set_prompts (prompts w ++ [p]) w);;
  mret line.

Definition input (prompt : string) : Py string := read_operator (Input prompt).
Definition getpass (prompt : string) : Py string := read_operator (Getpass prompt).

(** [requests.post(url, headers=headers, json=payload)]: the request goes
    out; the call raises when no response comes back. *)
Definition requests_post (u : string) (headers : list (string * string))
    (json : value) : Py (Z * option value) :=
  let rq := mkRequest u headers json in
  answer ← ask_world (fun w => server w (length (sent w)) rq);
  modify_world (fun w => set_sent (sent w ++ [rq]) w);;
  match answer with
  | NoResponse => raise RequestException
  | HttpResponse c b => mret (c, b)
  end.

(** [response.raise_for_status()]: [HTTPError] on 4xx and 5xx. *)
Definition raise_for_status (response : Z * option value) : Py unit :=
  let c := fst response in
  if (400 <=? c) && (c <? 600) then raise (HTTPError c) else mret tt.

(** [response.json()]. *)
Definition response_json_of (response : Z * option value) : Py value :=
  match snd response with
  | Some v => mret v
  | None => raise JSONDecodeError
  end.

(** [load_config(name)] and [save_config(name, config)] of
    [anemoi.utils.config]: a store of one dictionary per name; a name never
    saved loads as the empty dictionary. *)
Definition load_config (name : string) (w : World) : dict :=
  default [] (storage w !! name).

Definition save_config (name : string) (config : dict) : Py unit :=
  modify_world (fun w => set_storage (<[name := config]> (storage w)) w).

Fixpoint has_nul (s : string) : bool :=
  match s with
  | EmptyString => false
  | String c s' => Ascii.eqb c "000"%char || has_nul s'
  end.

(** [os.environ[k] = v]: [v] must be a [str] without a null character. *)
Definition environ_set (k : string) (v : value) : Py unit :=
  match v with
  | VStr s =>
      if has_nul s then raise ValueError
      else modify_world (fun w => set_environ (<[k := s]> (environ w)) w)
  | _ => raise TypeError
  end.

(** ** class TokenAuth *)

Definition set_refresh_token (v : value) (o : TokenAuth) : TokenAuth :=
  {| url := url o; refresh_expire_days := refresh_expire_days o;
     enabled := enabled o; config_file := config_file o;
     refresh_token := v; refresh_expires := refresh_expires o;
     access_token := access_token o; access_expires := access_expires o |}.

Definition set_access (tok : value) (expires : Q) (o : TokenAuth) : TokenAuth :=
  {| url := url o; refresh_expire_days := refresh_expire_days o;
     enabled := enabled o; config_file := config_file o;
     refresh_token := refresh_token o; refresh_expires := refresh_expires o;
     access_token := tok; access_expires := expires |}.

(** [TokenAuth.__init__] (lines 26-55).  No instance exists before the
    call: it takes the world and gives the new instance and the world. *)
Definition __init__ (url_arg : string) (refresh_expire_days_arg : Z)
    (enabled_arg : bool) (w : World) : (PyExn + TokenAuth) * World :=
  if String.eqb url_arg EmptyString then
    (inl (AssertionError "Please provide a URL for the authentication server."), w)
  else
    let config := load_config "mlflow-token.json" w in
    (inr {| url := url_arg;
            refresh_expire_days := refresh_expire_days_arg;
            enabled := enabled_arg;
            config_file := "mlflow-token.json";
            refresh_token := default VNone (dict_lookup "refresh_token" config);
            refresh_expires := default (VInt 0) (dict_lookup "refresh_expires" config);
            access_token := VNone;
            access_expires := 0%Q |},
     w).

Section Methods.

(** [json.loads] of the standard library, on the text of a [str]. *)
Variable json_loads : string -> PyExn + value.

Definition json_loads_value (v : value) : PyExn + value :=
  match v with
  | VStr s => json_loads s
  | _ => inl TypeError
  end.

Definition headers : list (string * string) :=
  [("Content-Type", "application/x-www-form-urlencoded")].

(** [TokenAuth._request] (lines 161-189). *)
Definition _request (path : string) (payload : value) : Py value :=
  try_except
    (u ← getattr url;
     response ← requests_post (u ++ "/" ++ path) headers payload;
     raise_for_status response;;
     response_json ← response_json_of response;
     status ← lift (py_get response_json "status" (VStr EmptyString));
     if eq_str status "ERROR" then
       r ← lift (py_getitem response_json "response");
       error ← (if is_str r then lift (json_loads_value r)
                else lift (py_getitem response_json "response"));
       msg ← lift (py_get error "error_description" (VStr "Error acquiring token."));
       LOG_warning msg;;
       mret (VDict [])
     else
       lift (py_getitem response_json "response"))
    (fun err =>
       (if is_HTTPError err then LOG_error "HTTP error occurred: " err
        else LOG_error "Other error occurred: " err);;
       raise err).

(** [TokenAuth._get_refresh_token] (lines 138-148). *)
Definition _get_refresh_token (refresh_token_arg username password : value)
    : Py value :=
  let '(path, payload) :=
    if truthy refresh_token_arg then
      ("refreshtoken", VDict [("refresh_token", refresh_token_arg)])
    else
      ("newtoken", VDict [("username", username); ("password", password)]) in
  response ← _request path payload;
  lift (py_get response "refresh_token" VNone).

(** [TokenAuth._get_access_token] (lines 150-159). *)
Definition _get_access_token : Py (value * Q) :=
  rt ← getattr refresh_token;
  response ← _request "refreshtoken" (VDict [("refresh_token", rt)]);
  token ← lift (py_get response "access_token" VNone);
  expires_in ← lift (py_get response "expires_in" VNone);
  now ← time_time;
  margin ← lift (py_mul_float expires_in (7 # 10));
  mret (token, (now + margin)%Q).

(** [TokenAuth._save_config] (lines 130-136). *)
Definition _save_config (refresh_token_arg : value) : Py unit :=
  now ← time_time;
  days ← getattr refresh_expire_days;
  let refresh_expires_new := (now + inject_Z (days * 24 * 60 * 60))%Q in
  let config := [("refresh_token", refresh_token_arg);
                 ("refresh_expires", VInt (py_int refresh_expires_new))] in
  name ← getattr config_file;
  save_config name config.

(** [TokenAuth.login], lines 82-92: the attempts to get a token, up to the
    value of [new_refresh_token] when line 94 is reached. *)
Definition login_new_refresh_token (force_credentials : bool) : Py value :=
  u ← getattr url;
  LOG_info ("Logging in to " ++ u);;
  rt ← getattr refresh_token;
  new_refresh_token ←
    (if negb force_credentials && truthy rt then
       re ← getattr refresh_expires;
       now ← time_time;
       valid ← lift (py_gt re now);
       if valid : bool then _get_refresh_token rt VNone VNone else mret VNone
     else mret VNone);
  if negb (truthy new_refresh_token) then
    LOG_info "Please sign in with your credentials.";;
    username ← input "Username: ";
    password ← getpass "Password: ";
    _get_refresh_token VNone (VStr username) (VStr password)
  else mret new_refresh_token.

(** [TokenAuth.login], lines 94-100: keep the token, or give up. *)
Definition login_store (new_refresh_token : value) : Py unit :=
  if truthy new_refresh_token then
    modify_self (set_refresh_token new_refresh_token);;
    _save_config new_refresh_token;;
    LOG_info "Successfully logged in to MLflow. Happy logging!"
  else
    raise (RuntimeError "Failed to log in. Please try again.").

(** [TokenAuth.login] (lines 60-100). *)
Definition login (force_credentials : bool) : Py unit :=
  en ← getattr enabled;
  if negb en then mret tt
  else
    new_refresh_token ← login_new_refresh_token force_credentials;
    login_store new_refresh_token.

(** [TokenAuth.authenticate] (lines 102-128). *)
Definition authenticate : Py unit :=
  en ← getattr enabled;
  if negb en then mret tt
  else
    ae ← getattr access_expires;
    now ← time_time;
    if Qltb now ae then mret tt
    else
      rt ← getattr refresh_token;
      stale ← (if negb (truthy rt) then mret true
               else
                 re ← getattr refresh_expires;
                 now' ← time_time;
                 lift (py_lt re now'));
      if stale : bool then
        raise (RuntimeError "You are not logged in to MLflow. Please log in first.")
      else
        '(token, expires) ← _get_access_token;
        modify_self (set_access token expires);;
        tok ← getattr access_token;
        environ_set "MLFLOW_TRACKING_TOKEN" tok;;
        LOG_debug "Access token refreshed.".

(** [TokenAuth.__call__] (lines 57-58). *)
Definition __call__ : Py unit := authenticate.

End Methods.

(** ** A decoder for a fragment of JSON

    The theorems below hold for every [json_loads].  To run the methods on
    concrete replies, this decoder stands in for it: objects, arrays,
    strings with the single-character escapes, integers and the three
    literals. *)

Module MiniJson.

Definition dquote : ascii := "034"%char.
Definition backslash : ascii := "092"%char.

Definition is_ws (c : ascii) : bool :=
  Ascii.eqb c " "%char || Ascii.eqb c "009"%char
  || Ascii.eqb c "010"%char || Ascii.eqb c "013"%char.

Fixpoint skip_ws (s : string) : string :=
  match s with
  | String c s' => if is_ws c then skip_ws s' else s
  | EmptyString => s
  end.

Definition digit_of (c : ascii) : option Z :=
  let n := Z.of_nat (nat_of_ascii c) in
  if (48 <=? n) && (n <=? 57) then Some (n - 48) else None.

Fixpoint read_digits (s : string) (acc : Z) : Z * string :=
  match s with
  | String c s' =>
      match digit_of c with
      | Some d => read_digits s' (10 * acc + d)
      | None => (acc, s)
      end
  | EmptyString => (acc, s)
  end.

Definition unescape (c : ascii) : option ascii :=
  if Ascii.eqb c dquote then Some dquote
  else if Ascii.eqb c backslash then Some backslash
  else if Ascii.eqb c "/"%char then Some "/"%char
  else if Ascii.eqb c "n"%char then Some "010"%char
  else if Ascii.eqb c "t"%char then Some "009"%char
  else if Ascii.eqb c "r"%char then Some "013"%char
  else None.

(** The text after an opening quote: the string's content and what follows
    the closing quote. *)
Fixpoint read_string (s : string) : option (string * string) :=
  match s with
  | EmptyString => None
  | String c s' =>
      if Ascii.eqb c dquote then Some (EmptyString, s')
      else if Ascii.eqb c backslash then
        match s' with
        | String e s'' =>
            match unescape e, read_string s'' with
            | Some x, Some (t, rest) => Some (String x t, rest)
            | _, _ => None
            end
        | EmptyString => None
        end
      else
        match read_string s' with
        | Some (t, rest) => Some (String c t, rest)
        | None => None
        end
  end.

Fixpoint strip_prefix (p s : string) : option string :=
  match p, s with
  | EmptyString, _ => Some s
  | String a p', String b s' => if Ascii.eqb a b then strip_prefix p' s' else None
  | String _ _, EmptyString => None
  end.

(** A later binding of a key replaces the earlier one, as in a [dict]. *)
Fixpoint dict_set (k : string) (v : value) (d : dict) : dict :=
  match d with
  | [] => [(k, v)]
  | (k', v') :: d' =>
      if String.eqb k k' then (k, v) :: d' else (k', v') :: dict_set k v d'
  end.

Fixpoint parse_value (fuel : nat) (s : string) : option (value * string) :=
  match fuel with
  | O => None
  | S f =>
      match skip_ws s with
      | EmptyString => None
      | String c rest =>
          if Ascii.eqb c dquote then
            match read_string rest with
            | Some (t, rest') => Some (VStr t, rest')
            | None => None
            end
          else if Ascii.eqb c "{"%char then
            match skip_ws rest with
            | String c' rest' =>
                if Ascii.eqb c' "}"%char then Some (VDict [], rest')
                else parse_members f (skip_ws rest) []
            | EmptyString => None
            end
          else if Ascii.eqb c "["%char then
            match skip_ws rest with
            | String c' rest' =>
                if Ascii.eqb c' "]"%char then Some (VList [], rest')
                else parse_elements f (skip_ws rest) []
            | EmptyString => None
            end
          else if Ascii.eqb c "-"%char then
            match rest with
            | String d _ =>
                match digit_of d with
                | Some _ => let '(n, rest') := read_digits rest 0 in
                            Some (VInt (- n), rest')
                | None => None
                end
            | EmptyString => None
            end
          else
            match digit_of c with
            | Some _ => let '(n, rest') := read_digits (String c rest) 0 in
                        Some (VInt n, rest')
            | None =>
                match strip_prefix "null" (String c rest),
                      strip_prefix "true" (String c rest),
                      strip_prefix "false" (String c rest) with
                | Some r, _, _ => Some (VNone, r)
                | _, Some r, _ => Some (VBool true, r)
                | _, _, Some r => Some (VBool false, r)
                | _, _, _ => None
                end
            end
      end
  end
with parse_members (fuel : nat) (s : string) (acc : dict)
    : option (value * string) :=
  match fuel with
  | O => None
  | S f =>
      match s with
      | String c rest =>
          if Ascii.eqb c dquote then
            match read_string rest with
            | Some (k, rest1) =>
                match skip_ws rest1 with
                | String colon rest2 =>
                    if Ascii.eqb colon ":"%char then
                      match parse_value f rest2 with
                      | Some (v, rest3) =>
                          match skip_ws rest3 with
                          | String sep rest4 =>
                              if Ascii.eqb sep ","%char then
                                parse_members f (skip_ws rest4) (dict_set k v acc)
                              else if Ascii.eqb sep "}"%char then
                                Some (VDict (dict_set k v acc), rest4)
                              else None
                          | EmptyString => None
                          end
                      | None => None
                      end
                    else None
                | EmptyString => None
                end
            | None => None
            end
          else None
      | EmptyString => None
      end
  end
with parse_elements (fuel : nat) (s : string) (acc : list value)
    : option (value * string) :=
  match fuel with
  | O => None
  | S f =>
      match parse_value f s with
      | Some (v, rest) =>
          match skip_ws rest with
          | String sep rest' =>
              if Ascii.eqb sep ","%char then parse_elements f rest' (acc ++ [v])
              else if Ascii.eqb sep "]"%char then Some (VList (acc ++ [v]), rest')
              else None
          | EmptyString => None
          end
      | None => None
      end
  end.

Definition loads (s : string) : PyExn + value :=
  match parse_value (2 * String.length s + 2) s with
  | Some (v, rest) =>
      match skip_ws rest with
      | EmptyString => inr v
      | String _ _ => inl JSONDecodeError
      end
  | None => inl JSONDecodeError
  end.

(** [quoted s] is the JSON text of the string [s], for [s] free of quotes
    and backslashes. *)
Definition quoted (s : string) : string :=
  String dquote (s ++ String dquote EmptyString).

End MiniJson.

(** ** Calls on an instance *)

Inductive Call : Type :=
| CallLogin (force_credentials : bool)
| CallAuthenticate.

Definition call (json_loads : string -> PyExn + value) (c : Call) : Py unit :=
  match c with
  | CallLogin force_credentials => login json_loads force_credentials
  | CallAuthenticate => authenticate json_loads
  end.

(** The state after a sequence of calls (a call that raises leaves the
    state as it was at the raise). *)
Fixpoint run (json_loads : string -> PyExn + value) (cs : list Call) (s : Sys) : Sys :=
  match cs with
  | [] => s
  | c :: cs' => run json_loads cs' (snd (call json_loads c s))
  end.

(** ** Vocabulary of the properties *)

(** [preserves R m]: whatever [m] does, and whether it returns or raises,
    the final state is related by [R] to the initial one. *)
Definition preserves {A} (R : Sys -> Sys -> Prop) (m : Py A) : Prop :=
  forall s, R s (snd (m s)).

(** Only traces moved: the instance, the store and the environment are
    as before. *)
Definition quiet (s s' : Sys) : Prop :=
  self s' = self s
  /\ storage (world s') = storage (world s)
  /\ environ (world s') = environ (world s).

Definition same_access (s s' : Sys) : Prop :=
  access_token (self s') = access_token (self s)
  /\ access_expires (self s') = access_expires (self s).

Definition same_storage (s s' : Sys) : Prop :=
  storage (world s') = storage (world s).

(** Relations between the states before and after a computation that can
    be chained along a sequence of statements. *)
Class Frame (R : Sys -> Sys -> Prop) : Prop := {
  frame_refl : forall s, R s s;
  frame_trans : forall s1 s2 s3, R s1 s2 -> R s2 s3 -> R s1 s3
}.

(** Relations that do not look at the clock, the log, the network trace or
    the prompts. *)
Class TraceBlind (R : Sys -> Sys -> Prop) : Prop := {
  blind_ticks : forall s n,
    R s {| self := self s; world := set_ticks n (world s) |};
  blind_log : forall s l,
    R s {| self := self s; world := set_log l (world s) |};
  blind_sent : forall s l,
    R s {| self := self s; world := set_sent l (world s) |};
  blind_prompts : forall s l,
    R s {| self := self s; world := set_prompts l (world s) |}
}.

(** The same state with other access-token fields. *)
Definition with_access (tok : value) (expires : Q) (s : Sys) : Sys :=
  {| self := set_access tok expires (self s); world := world s |}.

(** [m] neither reads nor writes the access-token fields: run with other
    values in them, it does the same and leaves them there. *)
Definition ignores_access {A} (m : Py A) : Prop :=
  forall tok expires s,
    m (with_access tok expires s)
    = (fst (m s), with_access tok expires (snd (m s))).

(** The refresh token is [None], or its expiry is a number other than 0. *)
Definition refresh_invariant (o : TokenAuth) : bool :=
  match refresh_token o with
  | VNone => true
  | _ => match as_number (refresh_expires o) with
         | Some e => negb (Qeq_bool e 0)
         | None => false
         end
  end.

(** The request of a silent renewal, and the request that carries the
    operator's next two lines as credentials. *)
Definition renewal_request (o : TokenAuth) : Request :=
  mkRequest (url o ++ "/refreshtoken") headers
    (VDict [("refresh_token", refresh_token o)]).

Definition credential_request (o : TokenAuth) (w : World) : Request :=
  mkRequest (url o ++ "/newtoken") headers
    (VDict [("username", VStr (operator w (length (prompts w))));
            ("password", VStr (operator w (S (length (prompts w)))))]).

(** What [login] leaves alone besides the access token: every attribute
    but [refresh_token], and the environment. *)
Definition login_frame (s s' : Sys) : Prop :=
  url (self s') = url (self s)
  /\ refresh_expire_days (self s') = refresh_expire_days (self s)
  /\ enabled (self s') = enabled (self s)
  /\ config_file (self s') = config_file (self s)
  /\ refresh_expires (self s') = refresh_expires (self s)
  /\ environ (world s') = environ (world s).

(** What [authenticate] leaves alone besides the store: every attribute
    but the access token and its expiry, and every environment variable
    but [MLFLOW_TRACKING_TOKEN]. *)
Definition authenticate_frame (s s' : Sys) : Prop :=
  url (self s') = url (self s)
  /\ refresh_expire_days (self s') = refresh_expire_days (self s)
  /\ enabled (self s') = enabled (self s)
  /\ config_file (self s') = config_file (self s)
  /\ refresh_token (self s') = refresh_token (self s)
  /\ refresh_expires (self s') = refresh_expires (self s)
  /\ forall k : string,
       k <> "MLFLOW_TRACKING_TOKEN" ->
       environ (world s') !! k = environ (world s) !! k.

(** What [_request] logs: the exception it raises, or the description of
    a rejection, or nothing. *)
Definition request_log (r : PyExn + value) (l : list LogRecord) : Prop :=
  match r with
  | inl e =>
      l = [LogExn ERROR
             (if is_HTTPError e then "HTTP error occurred: "
              else "Other error occurred: ") e]
  | inr v => l = [] \/ (v = VDict [] /\ exists msg, l = [LogMsg WARNING msg])
  end.

(** ** A stub server, a clock and an operator

    Concrete worlds on which the methods are run in the examples. *)

Module Stub.

Import MiniJson.

Definition base : string := "https://mlflow.example/auth".

(** The reply envelope [{status, response}] with a 200 status code. *)
Definition ok (payload : dict) : Response :=
  HttpResponse 200
    (Some (VDict [("status", VStr "OK"); ("response", VDict payload)])).

Definition rejected_object (description : string) : Response :=
  HttpResponse 200
    (Some (VDict [("status", VStr "ERROR");
                  ("response", VDict [("error", VStr "invalid_grant");
                                      ("error_description", VStr description)])])).

(** The same rejection with the error object sent as JSON text. *)
Definition rejected_string (description : string) : Response :=
  HttpResponse 200
    (Some (VDict [("status", VStr "ERROR");
                  ("response",
                   VStr ("{" ++ quoted "error" ++ ": " ++ quoted "invalid_grant"
                         ++ ", " ++ quoted "error_description" ++ ": "
                         ++ quoted description ++ "}"))])).

(** A server that issues tokens: a refresh token for credentials, and a
    new refresh token with an access token for a refresh token. *)
Definition issuing (n : nat) (rq : Request) : Response :=
  if String.eqb (req_url rq) (base ++ "/newtoken") then
    ok [("refresh_token", VStr "R1")]
  else
    ok [("refresh_token", VStr "R2"); ("access_token", VStr "T");
        ("expires_in", VInt 1000)].

(** Servers that turn every request down, in the two encodings. *)
Definition rejecting (n : nat) (rq : Request) : Response :=
  rejected_string "Invalid user credentials".

Definition rejecting_object (n : nat) (rq : Request) : Response :=
  rejected_object "Invalid user credentials".

(** Readings 1000.5, 1001.5, ... *)
Definition wall_clock (n : nat) : Q := ((2001 # 2) + inject_Z (Z.of_nat n))%Q.

Definition alice (n : nat) : string :=
  match n with O => "alice" | S _ => "secret" end.

Definition world_of (srv : nat -> Request -> Response)
    (store : gmap string dict) : World :=
  {| clock := wall_clock; ticks := 0; server := srv; sent := [];
     operator := alice; prompts := []; storage := store;
     environ := ∅; log := [] |}.

(** An instance as [__init__] leaves it when the store is empty. *)
Definition fresh : TokenAuth :=
  {| url := base; refresh_expire_days := 29; enabled := true;
     config_file := "mlflow-token.json";
     refresh_token := VNone; refresh_expires := VInt 0;
     access_token := VNone; access_expires := 0%Q |}.

(** A store that holds a token expiring at 5000, and the instance as
    [__init__] leaves it then. *)
Definition saved : gmap string dict :=
  {[ "mlflow-token.json" :=
       [("refresh_token", VStr "R0"); ("refresh_expires", VInt 5000)] ]}.

Definition logged_in : TokenAuth :=
  {| url := base; refresh_expire_days := 29; enabled := true;
     config_file := "mlflow-token.json";
     refresh_token := VStr "R0"; refresh_expires := VInt 5000;
     access_token := VNone; access_expires := 0%Q |}.

(** The instance that [__init__] makes of the stored token when
    authentication is turned off. *)
Definition disabled : TokenAuth :=
  {| url := base; refresh_expire_days := 29; enabled := false;
     config_file := "mlflow-token.json";
     refresh_token := VStr "R0"; refresh_expires := VInt 5000;
     access_token := VNone; access_expires := 0%Q |}.

(** A first login: nothing stored, the server issues tokens. *)
Definition first_login : Sys :=
  {| self := fresh; world := world_of issuing ∅ |}.

(** A first login that the server turns down. *)
Definition turned_down : Sys :=
  {| self := fresh; world := world_of rejecting ∅ |}.

(** A run that starts from a stored token. *)
Definition training : Sys :=
  {| self := logged_in; world := world_of issuing saved |}.

(** The same run when the server rejects the stored token. *)
Definition revoked : Sys :=
  {| self := logged_in; world := world_of rejecting saved |}.

Definition revoked_object : Sys :=
  {| self := logged_in; world := world_of rejecting_object saved |}.

(** A server that is down. *)
Definition unavailable (n : nat) (rq : Request) : Response :=
  HttpResponse 503 None.

(** A server whose reply has no [response] member. *)
Definition careless (n : nat) (rq : Request) : Response :=
  HttpResponse 200 (Some (VDict [("status", VStr "OK")])).

(** A server that rejects stored tokens and accepts credentials. *)
Definition refusing_renewal (n : nat) (rq : Request) : Response :=
  if String.eqb (req_url rq) (base ++ "/newtoken") then
    ok [("refresh_token", VStr "R1")]
  else
    rejected_string "Token is not active".

(** A server whose reply carries a lifetime and no access token. *)
Definition tokenless (n : nat) (rq : Request) : Response :=
  ok [("expires_in", VInt 1000)].

Definition outage : Sys :=
  {| self := logged_in; world := world_of unavailable saved |}.

Definition careless_run : Sys :=
  {| self := logged_in; world := world_of careless saved |}.

Definition refused : Sys :=
  {| self := logged_in; world := world_of refusing_renewal saved |}.

Definition tokenless_run : Sys :=
  {| self := logged_in; world := world_of tokenless saved |}.

(** A run whose access token is valid until 2000. *)
Definition authenticated : Sys :=
  {| self := set_access (VStr "T") (inject_Z 2000) logged_in;
     world := world_of issuing saved |}.

End Stub.

(** * Properties *)

(** ** Running the monad *)

Lemma run_bind {A B} (m : Py A) (f : A -> Py B) (s : Sys) :
  (m ≫= f) s = match m s with
               | (inr a, s') => f a s'
               | (inl e, s') => (inl e, s')
               end.
Proof. reflexivity. Qed.

Lemma run_bind_inr {A B} (m : Py A) (f : A -> Py B) (s s' : Sys) (a : A) :
  m s = (inr a, s') -> (m ≫= f) s = f a s'.
Proof. intros H. rewrite run_bind, H. reflexivity. Qed.

(** ** Frame rules *)

Section FrameRules.

Context (R : Sys -> Sys -> Prop) `{!Frame R}.

Lemma preserves_mret {A} (a : A) : preserves R (mret a).
Proof. intros s. apply frame_refl. Qed.

Lemma preserves_raise {A} (e : PyExn) : preserves R (@raise A e).
Proof. intros s. apply frame_refl. Qed.

Lemma preserves_lift {A} (r : PyExn + A) : preserves R (lift r).
Proof. intros s. apply frame_refl. Qed.

Lemma preserves_getattr {A} (f : TokenAuth -> A) : preserves R (getattr f).
Proof. intros s. apply frame_refl. Qed.

Lemma preserves_ask_world {A} (f : World -> A) : preserves R (ask_world f).
Proof. intros s. apply frame_refl. Qed.

Lemma preserves_bind {A B} (m : Py A) (f : A -> Py B) :
  preserves R m -> (forall a, preserves R (f a)) -> preserves R (m ≫= f).
Proof.
  intros Hm Hf s. rewrite run_bind.
  specialize (Hm s). destruct (m s) as [[e | a] s1]; simpl in *.
  - exact Hm.
  - eapply frame_trans; [exact Hm | apply Hf].
Qed.

Lemma preserves_try_except {A} (m : Py A) (h : PyExn -> Py A) :
  preserves R m -> (forall e, preserves R (h e)) -> preserves R (try_except m h).
Proof.
  intros Hm Hh s. unfold try_except.
  specialize (Hm s). destruct (m s) as [[e | a] s1]; simpl in *.
  - eapply frame_trans; [exact Hm | apply Hh].
  - exact Hm.
Qed.

Lemma preserves_modify_world (f : World -> World) :
  (forall s, R s {| self := self s; world := f (world s) |}) ->
  preserves R (modify_world f).
Proof. intros H s. apply H. Qed.

Lemma preserves_modify_self (f : TokenAuth -> TokenAuth) :
  (forall s, R s {| self := f (self s); world := world s |}) ->
  preserves R (modify_self f).
Proof. intros H s. apply H. Qed.

End FrameRules.

(** One step of a frame proof: follow the structure of the computation. *)
Ltac frame_step :=
  match goal with
  | |- preserves _ _ => solve [auto 1]
  | |- preserves _ (mret _) => apply preserves_mret; try exact _
  | |- preserves _ (raise _) => apply preserves_raise; try exact _
  | |- preserves _ (lift _) => apply preserves_lift; try exact _
  | |- preserves _ (getattr _) => apply preserves_getattr; try exact _
  | |- preserves _ (ask_world _) => apply preserves_ask_world; try exact _
  | |- preserves _ (_ ≫= _) => apply preserves_bind; [ try exact _ | | intros ]
  | |- preserves _ (try_except _ _) =>
      apply preserves_try_except; [ try exact _ | | intros ]
  | |- preserves _ (modify_world _) => apply preserves_modify_world; intros
  | |- preserves _ (modify_self _) => apply preserves_modify_self; intros
  | |- preserves _ (match ?x with _ => _ end) => destruct x
  end.

Ltac frame :=
  repeat frame_step;
  try first [ apply blind_ticks | apply blind_log
            | apply blind_sent | apply blind_prompts ].

Section TraceFrame.

Context (R : Sys -> Sys -> Prop) `{!Frame R} `{!TraceBlind R}.

Lemma preserves_time_time : preserves R time_time.
Proof. unfold time_time. frame. Qed.

Lemma preserves_LOG_emit (r : LogRecord) : preserves R (LOG_emit r).
Proof. unfold LOG_emit. frame. Qed.

Lemma preserves_read_operator (p : Prompt) : preserves R (read_operator p).
Proof. unfold read_operator. frame. Qed.

Lemma preserves_requests_post u h j : preserves R (requests_post u h j).
Proof. unfold requests_post. frame. Qed.

Lemma preserves_raise_for_status r : preserves R (raise_for_status r).
Proof. unfold raise_for_status. frame. Qed.

Lemma preserves_response_json_of r : preserves R (response_json_of r).
Proof. unfold response_json_of. frame. Qed.

Variable json_loads : string -> PyExn + value.

Lemma preserves_request path payload :
  preserves R (_request json_loads path payload).
Proof.
  pose proof preserves_requests_post. pose proof preserves_raise_for_status.
  pose proof preserves_response_json_of. pose proof preserves_LOG_emit.
  unfold _request, LOG_warning, LOG_error. frame.
Qed.

Lemma preserves_get_refresh_token rt u p :
  preserves R (_get_refresh_token json_loads rt u p).
Proof.
  pose proof preserves_request.
  unfold _get_refresh_token. frame.
Qed.

Lemma preserves_login_new_refresh_token force :
  preserves R (login_new_refresh_token json_loads force).
Proof.
  pose proof preserves_get_refresh_token. pose proof preserves_time_time.
  pose proof preserves_LOG_emit. pose proof preserves_read_operator.
  unfold login_new_refresh_token, LOG_info, input, getpass. frame.
Qed.

Lemma preserves_get_access_token :
  preserves R (_get_access_token json_loads).
Proof.
  pose proof preserves_request. pose proof preserves_time_time.
  unfold _get_access_token. frame.
Qed.

End TraceFrame.

(** ** The relations used below *)

#[global] Instance quiet_frame : Frame quiet.
Proof.
  split.
  - intros s. repeat split.
  - unfold quiet. intros s1 s2 s3 (-> & -> & ->) (-> & -> & ->). repeat split.
Qed.

#[global] Instance quiet_trace_blind : TraceBlind quiet.
Proof. split; intros; repeat split. Qed.

#[global] Instance same_access_frame : Frame same_access.
Proof.
  split.
  - intros s. split; reflexivity.
  - unfold same_access. intros s1 s2 s3 [-> ->] [-> ->]. split; reflexivity.
Qed.

#[global] Instance same_access_trace_blind : TraceBlind same_access.
Proof. split; intros; split; reflexivity. Qed.

#[global] Instance same_storage_frame : Frame same_storage.
Proof.
  split.
  - intros s. reflexivity.
  - unfold same_storage. intros s1 s2 s3 -> ->. reflexivity.
Qed.

#[global] Instance same_storage_trace_blind : TraceBlind same_storage.
Proof. split; intros; reflexivity. Qed.

(** ** Comparisons on timestamps *)

Lemma Qltb_true_iff (a b : Q) : Qltb a b = true <-> (a < b)%Q.
Proof.
  unfold Qltb. rewrite negb_true_iff.
  destruct (Qle_bool b a) eqn:E.
  - apply Qle_bool_iff in E. split; [discriminate |].
    intros H. exfalso. exact (Qlt_not_le _ _ H E).
  - split; [intros _ | reflexivity].
    apply Qnot_le_lt. intros H. apply Qle_bool_iff in H. congruence.
Qed.

Lemma Qltb_false_iff (a b : Q) : Qltb a b = false <-> (b <= a)%Q.
Proof.
  unfold Qltb. rewrite negb_false_iff. apply Qle_bool_iff.
Qed.

Lemma seconds_per_day (days : Z) : days * 24 * 60 * 60 = days * 86400.
Proof. lia. Qed.

Lemma status_2xx_passes (code : Z) :
  200 <= code < 300 -> (400 <=? code) && (code <? 600) = false.
Proof. intros H. apply andb_false_iff. left. apply Z.leb_gt. lia. Qed.

(** ** Computations that ignore the access token *)

Lemma ignores_mret {A} (a : A) : ignores_access (mret a).
Proof. intros tok e s. reflexivity. Qed.

Lemma ignores_raise {A} (x : PyExn) : ignores_access (@raise A x).
Proof. intros tok e s. reflexivity. Qed.

Lemma ignores_lift {A} (r : PyExn + A) : ignores_access (lift r).
Proof. intros tok e s. reflexivity. Qed.

Lemma ignores_ask_world {A} (f : World -> A) : ignores_access (ask_world f).
Proof. intros tok e s. reflexivity. Qed.

Lemma ignores_modify_world (f : World -> World) : ignores_access (modify_world f).
Proof. intros tok e s. reflexivity. Qed.

Lemma ignores_getattr {A} (f : TokenAuth -> A) :
  (forall tok e o, f (set_access tok e o) = f o) -> ignores_access (getattr f).
Proof.
  intros H tok e s. unfold getattr, with_access. simpl. rewrite H. reflexivity.
Qed.

Lemma ignores_set_refresh_token (v : value) :
  ignores_access (modify_self (set_refresh_token v)).
Proof. intros tok e s. reflexivity. Qed.

Lemma ignores_bind {A B} (m : Py A) (f : A -> Py B) :
  ignores_access m -> (forall a, ignores_access (f a)) -> ignores_access (m ≫= f).
Proof.
  intros Hm Hf tok e s. rewrite !run_bind, Hm.
  destruct (m s) as [[x | a] s1]; simpl.
  - reflexivity.
  - apply Hf.
Qed.

Lemma ignores_try_except {A} (m : Py A) (h : PyExn -> Py A) :
  ignores_access m -> (forall x, ignores_access (h x)) ->
  ignores_access (try_except m h).
Proof.
  intros Hm Hh tok e s. unfold try_except. rewrite Hm.
  destruct (m s) as [[x | a] s1]; simpl.
  - apply Hh.
  - reflexivity.
Qed.

Ltac ignores_step :=
  match goal with
  | |- ignores_access _ => solve [auto 1]
  | |- ignores_access (mret _) => apply ignores_mret
  | |- ignores_access (raise _) => apply ignores_raise
  | |- ignores_access (lift _) => apply ignores_lift
  | |- ignores_access (ask_world _) => apply ignores_ask_world
  | |- ignores_access (modify_world _) => apply ignores_modify_world
  | |- ignores_access (getattr _) => apply ignores_getattr; reflexivity
  | |- ignores_access (modify_self (set_refresh_token _)) =>
      apply ignores_set_refresh_token
  | |- ignores_access (_ ≫= _) => apply ignores_bind; [ | intros ]
  | |- ignores_access (try_except _ _) => apply ignores_try_except; [ | intros ]
  | |- ignores_access (match ?x with _ => _ end) => destruct x
  end.

Ltac ignores := repeat ignores_step.

Section IgnoresAccess.

Variable json_loads : string -> PyExn + value.

Lemma request_ignores_access path payload :
  ignores_access (_request json_loads path payload).
Proof.
  unfold _request, requests_post, raise_for_status, response_json_of,
    LOG_warning, LOG_error, LOG_emit.
  ignores.
Qed.

Lemma get_refresh_token_ignores_access rt u p :
  ignores_access (_get_refresh_token json_loads rt u p).
Proof.
  pose proof request_ignores_access.
  unfold _get_refresh_token. ignores.
Qed.

Lemma login_new_refresh_token_ignores_access force :
  ignores_access (login_new_refresh_token json_loads force).
Proof.
  pose proof get_refresh_token_ignores_access.
  unfold login_new_refresh_token, time_time, LOG_info, LOG_emit, input, getpass,
    read_operator.
  ignores.
Qed.

Lemma login_store_ignores_access tok : ignores_access (login_store tok).
Proof.
  unfold login_store, _save_config, save_config, time_time, LOG_info, LOG_emit.
  ignores.
Qed.

Lemma login_ignores_access force : ignores_access (login json_loads force).
Proof.
  pose proof login_new_refresh_token_ignores_access.
  pose proof login_store_ignores_access.
  unfold login. ignores.
Qed.

End IgnoresAccess.

(** ** The methods *)

Ltac py_simpl :=
  cbn -[as_number truthy Qltb py_int String.append insert Qplus Qmult
        _get_access_token _request].

Section Properties.

Variable json_loads : string -> PyExn + value.

Lemma login_new_refresh_token_quiet force :
  preserves quiet (login_new_refresh_token json_loads force).
Proof. apply preserves_login_new_refresh_token; exact _. Qed.

(** [__init__] stores its arguments. *)
Lemma init_fields u days en w o :
  fst (__init__ u days en w) = inr o ->
  url o = u /\ refresh_expire_days o = days /\ enabled o = en
  /\ config_file o = "mlflow-token.json"
  /\ access_token o = VNone /\ access_expires o = 0%Q.
Proof.
  unfold __init__. destruct (String.eqb u EmptyString); [discriminate |].
  simpl. intros [= <-]. repeat split.
Qed.

(** [__init__] reads the world and leaves it as it is. *)
Lemma init_world u days en w : snd (__init__ u days en w) = w.
Proof. unfold __init__. destruct (String.eqb u EmptyString); reflexivity. Qed.

Lemma login_enabled force s :
  enabled (self s) = true ->
  login json_loads force s
  = (login_new_refresh_token json_loads force ≫= login_store) s.
Proof.
  intros Hen. unfold login at 1. unfold getattr. rewrite run_bind. py_simpl.
  rewrite Hen. reflexivity.
Qed.

Lemma login_store_run tok s :
  truthy tok = true ->
  login_store tok s
  = (inr tt,
     {| self := set_refresh_token tok (self s);
        world :=
          set_log
            (log (world s)
             ++ [LogMsg INFO (VStr "Successfully logged in to MLflow. Happy logging!")])
            (set_storage
               (<[config_file (self s) :=
                    [("refresh_token", tok);
                     ("refresh_expires",
                      VInt (py_int (clock (world s) (ticks (world s))
                                    + inject_Z (refresh_expire_days (self s)
                                                * 24 * 60 * 60))))]]>
                  (storage (world s)))
               (set_ticks (S (ticks (world s))) (world s))) |}).
Proof. intros H. unfold login_store. rewrite H. reflexivity. Qed.

(** C1 (as amended). When an enabled instance's [login] has obtained a new
    refresh token, by silent renewal or from the operator's credentials,
    [login] returns, the in-memory refresh token is the new token, and the
    store holds under the configuration name the record made of the new
    token and of [int(now + refresh_expire_days * 86400)], where [now] is
    the clock reading taken when saving. *)
Theorem login_stores_new_token (force_credentials : bool) (s s1 : Sys)
    (tok : value) :
  enabled (self s) = true ->
  login_new_refresh_token json_loads force_credentials s = (inr tok, s1) ->
  truthy tok = true ->
  exists s2,
    login json_loads force_credentials s = (inr tt, s2)
    /\ refresh_token (self s2) = tok
    /\ storage (world s2)
       = <[config_file (self s) :=
             [("refresh_token", tok);
              ("refresh_expires",
               VInt (py_int (clock (world s1) (ticks (world s1))
                             + inject_Z (refresh_expire_days (self s) * 86400))))]]>
           (storage (world s)).
Proof.
  intros Hen Hnew Htok.
  rewrite login_enabled by exact Hen.
  rewrite (run_bind_inr _ _ _ _ _ Hnew).
  pose proof (login_new_refresh_token_quiet force_credentials s) as Hq.
  rewrite Hnew in Hq. destruct Hq as (Hself & Hsto & _). simpl in Hself, Hsto.
  rewrite login_store_run by exact Htok.
  eexists. split; [reflexivity |]. py_simpl.
  rewrite Hself, Hsto, seconds_per_day. split; reflexivity.
Qed.

(** [login] never assigns [self.refresh_expires]: the new expiry only
    reaches the store, and the instance keeps the one it was built with. *)
Lemma login_keeps_refresh_expires force s :
  refresh_expires (self (snd (login json_loads force s)))
  = refresh_expires (self s).
Proof.
  destruct (enabled (self s)) eqn:Hen.
  - rewrite login_enabled by exact Hen. rewrite run_bind.
    pose proof (login_new_refresh_token_quiet force s) as Hq.
    destruct (login_new_refresh_token json_loads force s) as [[e | tok] s1];
      destruct Hq as (Hself & _); simpl in Hself |- *.
    + rewrite Hself. reflexivity.
    + destruct (truthy tok) eqn:Htok.
      * rewrite login_store_run by exact Htok. simpl. rewrite Hself. reflexivity.
      * unfold login_store. rewrite Htok. simpl. rewrite Hself. reflexivity.
  - unfold login, getattr. rewrite run_bind. py_simpl. rewrite Hen. reflexivity.
Qed.

(** C6. When neither path of an enabled instance's [login] obtains a
    refresh token, [login] raises [RuntimeError("Failed to log in. Please
    try again.")], and both the store and the instance are as they were
    before the call. *)
Theorem login_without_token_fails (force_credentials : bool) (s s1 : Sys)
    (tok : value) :
  enabled (self s) = true ->
  login_new_refresh_token json_loads force_credentials s = (inr tok, s1) ->
  truthy tok = false ->
  login json_loads force_credentials s
  = (inl (RuntimeError "Failed to log in. Please try again."), s1)
  /\ storage (world s1) = storage (world s)
  /\ self s1 = self s.
Proof.
  intros Hen Hnew Htok.
  rewrite login_enabled by exact Hen.
  rewrite (run_bind_inr _ _ _ _ _ Hnew).
  unfold login_store. rewrite Htok.
  pose proof (login_new_refresh_token_quiet force_credentials s) as Hq.
  rewrite Hnew in Hq. destruct Hq as (Hself & Hsto & _).
  repeat split; assumption.
Qed.

(** However [login] fails (no token, a transport error, a malformed
    reply), the store is not written. *)
Lemma failed_login_keeps_storage force s e s' :
  login json_loads force s = (inl e, s') ->
  storage (world s') = storage (world s).
Proof.
  intros H.
  destruct (enabled (self s)) eqn:Hen.
  - rewrite login_enabled in H by exact Hen.
    rewrite run_bind in H.
    pose proof (login_new_refresh_token_quiet force s) as Hq.
    destruct (login_new_refresh_token json_loads force s) as [[e1 | tok] s1].
    + injection H as _ Hs. subst s'. apply Hq.
    + destruct Hq as (_ & Hsto & _). simpl in Hsto.
      destruct (truthy tok) eqn:Htok.
      * rewrite login_store_run in H by exact Htok. discriminate H.
      * unfold login_store in H. rewrite Htok in H.
        injection H as _ Hs. subst s'. exact Hsto.
  - unfold login, getattr in H. rewrite run_bind in H. cbn in H.
    rewrite Hen in H. discriminate H.
Qed.

(** C10. [login] never changes the in-memory access token or its expiry,
    whether it returns or raises: after the call both fields are what they
    were before it. *)
Theorem login_keeps_access_token (force_credentials : bool) (s : Sys) :
  access_token (self (snd (login json_loads force_credentials s)))
  = access_token (self s)
  /\ access_expires (self (snd (login json_loads force_credentials s)))
     = access_expires (self s).
Proof.
  change (same_access s (snd (login json_loads force_credentials s))).
  revert s. change (preserves same_access (login json_loads force_credentials)).
  pose proof (preserves_login_new_refresh_token same_access json_loads).
  pose proof (preserves_time_time same_access).
  pose proof (preserves_LOG_emit same_access).
  unfold login, login_store, _save_config, save_config, LOG_info.
  frame; split; reflexivity.
Qed.

Lemma disabled_call (c : Call) (s : Sys) :
  enabled (self s) = false -> call json_loads c s = (inr tt, s).
Proof.
  intros H. destruct c; simpl; unfold login, authenticate, getattr;
    rewrite run_bind; simpl; rewrite H; reflexivity.
Qed.

(** C8. An instance constructed with [enabled = false] is inert: in any
    world, a call to [login] (whatever [force_credentials]) or to
    [authenticate] returns at once and leaves the instance and the whole
    world (requests sent, prompts shown, store, environment, log, clock)
    exactly as they were; so does any sequence of such calls. *)
Theorem disabled_instance_is_inert (u : string) (days : Z) (w : World)
    (o : TokenAuth) :
  fst (__init__ u days false w) = inr o ->
  forall (w' : World),
    (forall c : Call,
       call json_loads c {| self := o; world := w' |}
       = (inr tt, {| self := o; world := w' |}))
    /\ (forall cs : list Call,
       run json_loads cs {| self := o; world := w' |}
       = {| self := o; world := w' |}).
Proof.
  intros Hinit w'. apply init_fields in Hinit as (_ & _ & Hen & _).
  split.
  - intros c. apply disabled_call. exact Hen.
  - intros cs. induction cs as [| c cs IH]; simpl; [reflexivity |].
    rewrite disabled_call by exact Hen. exact IH.
Qed.

(** C5. On an enabled instance whose access token is not valid any more
    (its expiry is not after the clock), [authenticate] raises
    [RuntimeError("You are not logged in to MLflow. Please log in first.")]
    when the refresh token is absent or its expiry is before the clock.
    Nothing is sent, and the instance, the store, the environment, the
    log and the prompts are untouched: only clock readings were taken. *)
Theorem authenticate_without_valid_refresh_token (s : Sys) :
  enabled (self s) = true ->
  (access_expires (self s) <= clock (world s) (ticks (world s)))%Q ->
  (truthy (refresh_token (self s)) = false
   \/ exists e, as_number (refresh_expires (self s)) = Some e
                /\ (e < clock (world s) (S (ticks (world s))))%Q) ->
  exists n,
    authenticate json_loads s
    = (inl (RuntimeError "You are not logged in to MLflow. Please log in first."),
       {| self := self s; world := set_ticks n (world s) |}).
Proof.
  intros Hen Hacc Href.
  apply Qltb_false_iff in Hacc.
  unfold authenticate, time_time, getattr, ask_world, modify_world, raise, lift,
    mbind, Py_bind, mret, Py_ret.
  py_simpl. rewrite Hen. py_simpl. rewrite Hacc. py_simpl.
  destruct (truthy (refresh_token (self s))) eqn:Ht; py_simpl.
  - destruct Href as [? | (e & He & Hlt)]; [discriminate |].
    unfold py_lt. rewrite He.
    apply Qltb_true_iff in Hlt. rewrite Hlt. py_simpl.
    eexists. reflexivity.
  - eexists. reflexivity.
Qed.

Ltac request_unfold :=
  unfold _request, try_except, requests_post, raise_for_status, response_json_of,
    LOG_warning, LOG_error, LOG_emit, getattr, ask_world, modify_world, raise, lift,
    mbind, Py_bind, mret, Py_ret.

(** A reply that is not a rejection: [_request] returns its [response]. *)
Lemma request_ok path payload s code b r :
  server (world s) (length (sent (world s)))
    (mkRequest (url (self s) ++ "/" ++ path) headers payload)
  = HttpResponse code (Some (VDict b)) ->
  (400 <=? code) && (code <? 600) = false ->
  eq_str (default (VStr EmptyString) (dict_lookup "status" b)) "ERROR" = false ->
  dict_lookup "response" b = Some r ->
  _request json_loads path payload s
  = (inr r,
     {| self := self s;
        world := set_sent
                   (sent (world s)
                    ++ [mkRequest (url (self s) ++ "/" ++ path) headers payload])
                   (world s) |}).
Proof.
  intros Hsrv Hcode Hst Hresp.
  request_unfold. py_simpl. rewrite Hsrv. py_simpl. rewrite Hcode. py_simpl.
  rewrite Hst. py_simpl. rewrite Hresp. reflexivity.
Qed.

(** A rejection, in either encoding of the error object: [_request] logs
    the description and returns the empty dictionary. *)
Lemma request_rejected path payload s code b e r :
  server (world s) (length (sent (world s)))
    (mkRequest (url (self s) ++ "/" ++ path) headers payload)
  = HttpResponse code (Some (VDict b)) ->
  (400 <=? code) && (code <? 600) = false ->
  dict_lookup "status" b = Some (VStr "ERROR") ->
  dict_lookup "response" b = Some r ->
  (r = VDict e \/ exists t, r = VStr t /\ json_loads t = inr (VDict e)) ->
  _request json_loads path payload s
  = (inr (VDict []),
     {| self := self s;
        world :=
          set_log
            (log (world s)
             ++ [LogMsg WARNING
                   (default (VStr "Error acquiring token.")
                      (dict_lookup "error_description" e))])
            (set_sent
               (sent (world s)
                ++ [mkRequest (url (self s) ++ "/" ++ path) headers payload])
               (world s)) |}).
Proof.
  intros Hsrv Hcode Hst Hresp Hr.
  request_unfold. py_simpl. rewrite Hsrv. py_simpl. rewrite Hcode. py_simpl.
  rewrite Hst. py_simpl. rewrite Hresp. py_simpl.
  destruct Hr as [-> | (t & -> & Ht)]; py_simpl.
  - reflexivity.
  - rewrite Ht. reflexivity.
Qed.

(** C7. When the server replies with a 2xx status and a body
    [{status: "ERROR", response: r}], [_request] returns the empty
    dictionary (no token) without raising, both when [r] is the error
    object [e] itself and when [r] is a string that [json.loads] decodes to
    [e].  The result, the warning logged and the final state are the same
    in the two cases. *)
Theorem request_soft_rejection (path : string) (payload : value) (s : Sys)
    (code : Z) (b e : dict) (r : value) :
  server (world s) (length (sent (world s)))
    (mkRequest (url (self s) ++ "/" ++ path) headers payload)
  = HttpResponse code (Some (VDict b)) ->
  200 <= code < 300 ->
  dict_lookup "status" b = Some (VStr "ERROR") ->
  dict_lookup "response" b = Some r ->
  (r = VDict e \/ exists t, r = VStr t /\ json_loads t = inr (VDict e)) ->
  _request json_loads path payload s
  = (inr (VDict []),
     {| self := self s;
        world :=
          set_log
            (log (world s)
             ++ [LogMsg WARNING
                   (default (VStr "Error acquiring token.")
                      (dict_lookup "error_description" e))])
            (set_sent
               (sent (world s)
                ++ [mkRequest (url (self s) ++ "/" ++ path) headers payload])
               (world s)) |}).
Proof.
  intros Hsrv Hcode Hst Hresp Hr.
  apply (request_rejected path payload s code b e r Hsrv
           (status_2xx_passes code Hcode) Hst Hresp Hr).
Qed.

Lemma get_access_token_run s code b payload x :
  server (world s) (length (sent (world s)))
    (mkRequest (url (self s) ++ "/" ++ "refreshtoken") headers
       (VDict [("refresh_token", refresh_token (self s))]))
  = HttpResponse code (Some (VDict b)) ->
  (400 <=? code) && (code <? 600) = false ->
  eq_str (default (VStr EmptyString) (dict_lookup "status" b)) "ERROR" = false ->
  dict_lookup "response" b = Some (VDict payload) ->
  as_number (default VNone (dict_lookup "expires_in" payload)) = Some x ->
  _get_access_token json_loads s
  = (inr (default VNone (dict_lookup "access_token" payload),
          (clock (world s) (ticks (world s)) + x * (7 # 10))%Q),
     {| self := self s;
        world :=
          set_ticks (S (ticks (world s)))
            (set_sent
               (sent (world s)
                ++ [mkRequest (url (self s) ++ "/" ++ "refreshtoken") headers
                      (VDict [("refresh_token", refresh_token (self s))])])
               (world s)) |}).
Proof.
  intros Hsrv Hcode Hst Hresp Hx.
  unfold _get_access_token.
  rewrite run_bind. unfold getattr at 1. cbv beta iota.
  rewrite run_bind.
  rewrite (request_ok _ _ _ _ _ _ Hsrv Hcode Hst Hresp).
  unfold time_time, py_mul_float, py_get, lift, getattr, ask_world, modify_world,
    mbind, Py_bind, mret, Py_ret.
  py_simpl. rewrite Hx. reflexivity.
Qed.

(** C4. On an enabled instance with a valid refresh token and no valid
    access token, when the server answers the exchange with
    [{access_token: T, expires_in: n}], [authenticate] returns, the
    in-memory access token is [T], its expiry is [now + 0.7 * n] for the
    clock reading [now] taken on receipt, and [MLFLOW_TRACKING_TOKEN] is
    [T] in the environment.  (The claim is the case [T = "T"],
    [n = 1000].) *)
Theorem authenticate_fetches_access_token (s : Sys) (code : Z)
    (b payload : dict) (T : string) (n : Z) (e : Q) :
  enabled (self s) = true ->
  (access_expires (self s) <= clock (world s) (ticks (world s)))%Q ->
  truthy (refresh_token (self s)) = true ->
  as_number (refresh_expires (self s)) = Some e ->
  (clock (world s) (S (ticks (world s))) <= e)%Q ->
  server (world s) (length (sent (world s)))
    (mkRequest (url (self s) ++ "/refreshtoken") headers
       (VDict [("refresh_token", refresh_token (self s))]))
  = HttpResponse code (Some (VDict b)) ->
  200 <= code < 300 ->
  dict_lookup "status" b = Some (VStr "OK") ->
  dict_lookup "response" b = Some (VDict payload) ->
  dict_lookup "access_token" payload = Some (VStr T) ->
  dict_lookup "expires_in" payload = Some (VInt n) ->
  has_nul T = false ->
  exists s',
    authenticate json_loads s = (inr tt, s')
    /\ access_token (self s') = VStr T
    /\ (access_expires (self s')
        == clock (world s) (S (S (ticks (world s)))) + (7 # 10) * inject_Z n)%Q
    /\ environ (world s') !! "MLFLOW_TRACKING_TOKEN" = Some T.
Proof.
  intros Hen Hacc Htok Hexp Hfresh Hsrv Hcode Hst Hresp HT Hn Hnul.
  apply Qltb_false_iff in Hacc, Hfresh.
  apply status_2xx_passes in Hcode.
  unfold authenticate, getattr, time_time, py_lt, lift, ask_world, modify_world,
    modify_self, environ_set, LOG_debug, LOG_emit, mbind, Py_bind, mret, Py_ret.
  py_simpl. rewrite Hen. py_simpl. rewrite Hacc. py_simpl. rewrite Htok. py_simpl.
  rewrite Hexp, Hfresh. py_simpl.
  erewrite get_access_token_run; cycle 1.
  - exact Hsrv.
  - exact Hcode.
  - rewrite Hst. reflexivity.
  - exact Hresp.
  - rewrite Hn. reflexivity.
  - rewrite HT. py_simpl. rewrite Hnul. py_simpl.
    eexists. split; [reflexivity |]. py_simpl.
    split; [reflexivity |]. split.
    + apply Qplus_comp; [reflexivity | apply Qmult_comm].
    + apply lookup_insert_eq.
Qed.

(** After a rejection [_get_access_token] finds no [expires_in] in the
    empty dictionary and multiplies [None] by [0.7]: whenever the stored
    token is valid and the server rejects it, in either encoding,
    [authenticate] raises [TypeError]. *)
Lemma authenticate_soft_rejection (s : Sys) (code : Z) (b err : dict)
    (r : value) (e : Q) :
  enabled (self s) = true ->
  (access_expires (self s) <= clock (world s) (ticks (world s)))%Q ->
  truthy (refresh_token (self s)) = true ->
  as_number (refresh_expires (self s)) = Some e ->
  (clock (world s) (S (ticks (world s))) <= e)%Q ->
  server (world s) (length (sent (world s)))
    (mkRequest (url (self s) ++ "/refreshtoken") headers
       (VDict [("refresh_token", refresh_token (self s))]))
  = HttpResponse code (Some (VDict b)) ->
  200 <= code < 300 ->
  dict_lookup "status" b = Some (VStr "ERROR") ->
  dict_lookup "response" b = Some r ->
  (r = VDict err \/ exists t, r = VStr t /\ json_loads t = inr (VDict err)) ->
  fst (authenticate json_loads s) = inl TypeError.
Proof.
  intros Hen Hacc Htok Hexp Hfresh Hsrv Hcode Hst Hresp Hr.
  apply Qltb_false_iff in Hacc, Hfresh.
  apply status_2xx_passes in Hcode.
  unfold authenticate, getattr, time_time, py_lt, lift, ask_world, modify_world,
    mbind, Py_bind, mret, Py_ret.
  py_simpl. rewrite Hen. py_simpl. rewrite Hacc. py_simpl. rewrite Htok. py_simpl.
  rewrite Hexp, Hfresh. py_simpl.
  unfold _get_access_token, getattr, mbind, Py_bind. py_simpl.
  erewrite request_rejected;
    [reflexivity | exact Hsrv | exact Hcode | exact Hst | exact Hresp | exact Hr].
Qed.

(** The two ways in which [login] gets a token. *)

(** X5. Silent renewal: with a stored token whose expiry is after the clock
    and without [force_credentials], the token is posted to
    [refreshtoken]; when the reply carries a token, the operator is not
    asked. *)
Lemma silent_renewal s code b payload tok e :
  truthy (refresh_token (self s)) = true ->
  as_number (refresh_expires (self s)) = Some e ->
  (clock (world s) (ticks (world s)) < e)%Q ->
  server (world s) (length (sent (world s)))
    (mkRequest (url (self s) ++ "/refreshtoken") headers
       (VDict [("refresh_token", refresh_token (self s))]))
  = HttpResponse code (Some (VDict b)) ->
  (400 <=? code) && (code <? 600) = false ->
  eq_str (default (VStr EmptyString) (dict_lookup "status" b)) "ERROR" = false ->
  dict_lookup "response" b = Some (VDict payload) ->
  dict_lookup "refresh_token" payload = Some tok ->
  truthy tok = true ->
  exists s1,
    login_new_refresh_token json_loads false s = (inr tok, s1)
    /\ prompts (world s1) = prompts (world s)
    /\ sent (world s1)
       = (sent (world s)
          ++ [mkRequest (url (self s) ++ "/refreshtoken") headers
                (VDict [("refresh_token", refresh_token (self s))])])%list.
Proof.
  intros Hrt He Hlt Hsrv Hcode Hst Hresp Htok Htruthy.
  apply Qltb_true_iff in Hlt.
  unfold login_new_refresh_token, LOG_info, LOG_emit, time_time, py_gt,
    _get_refresh_token, getattr, ask_world, modify_world, lift,
    mbind, Py_bind, mret, Py_ret.
  py_simpl. rewrite Hrt. py_simpl. rewrite He, Hlt. py_simpl.
  erewrite request_ok; [ | exact Hsrv | exact Hcode | exact Hst | exact Hresp ].
  py_simpl. rewrite Htok. py_simpl. rewrite Htruthy. py_simpl.
  eexists. split; [reflexivity |]. split; reflexivity.
Qed.
(** The end of the credential path, once the operator has been reached:
    the second line read is the password, and the reply gives the token. *)
Ltac post_credentials Hsrv Hcode Hst Hresp Htok :=
  change (truthy VNone) with false; py_simpl; rewrite last_length;
  erewrite request_ok; [ | exact Hsrv | exact Hcode | exact Hst | exact Hresp ];
  py_simpl; rewrite Htok; eexists; split; [reflexivity |];
  py_simpl; rewrite <- app_assoc; split; reflexivity.

(** X6. The credential prompt: with [force_credentials], or without a stored
    token, or with one whose expiry is not after the clock, the operator
    is asked for a user name and a password, which are posted to
    [newtoken]; [login] goes on with the token of the reply. *)
Lemma credential_prompt force s code b payload tok :
  (force = true
   \/ truthy (refresh_token (self s)) = false
   \/ exists e, as_number (refresh_expires (self s)) = Some e
                /\ (e <= clock (world s) (ticks (world s)))%Q) ->
  server (world s) (length (sent (world s)))
    (mkRequest (url (self s) ++ "/newtoken") headers
       (VDict [("username",
                VStr (operator (world s) (length (prompts (world s)))));
               ("password",
                VStr (operator (world s) (S (length (prompts (world s))))))]))
  = HttpResponse code (Some (VDict b)) ->
  (400 <=? code) && (code <? 600) = false ->
  eq_str (default (VStr EmptyString) (dict_lookup "status" b)) "ERROR" = false ->
  dict_lookup "response" b = Some (VDict payload) ->
  dict_lookup "refresh_token" payload = Some tok ->
  exists s1,
    login_new_refresh_token json_loads force s = (inr tok, s1)
    /\ prompts (world s1)
       = (prompts (world s) ++ [Input "Username: "; Getpass "Password: "])%list
    /\ sent (world s1)
       = (sent (world s)
          ++ [mkRequest (url (self s) ++ "/newtoken") headers
                (VDict [("username",
                         VStr (operator (world s) (length (prompts (world s)))));
                        ("password",
                         VStr (operator (world s)
                                 (S (length (prompts (world s))))))])])%list.
Proof.
  intros Hskip Hsrv Hcode Hst Hresp Htok.
  unfold login_new_refresh_token, LOG_info, LOG_emit, time_time, py_gt,
    input, getpass, read_operator, _get_refresh_token,
    getattr, ask_world, modify_world, lift, mbind, Py_bind, mret, Py_ret.
  py_simpl.
  destruct force; py_simpl.
  - post_credentials Hsrv Hcode Hst Hresp Htok.
  - destruct (truthy (refresh_token (self s))) eqn:Hrt; py_simpl.
    + destruct Hskip as [? | [? | (e & He & Hle)]]; try discriminate.
      apply Qltb_false_iff in Hle. rewrite He, Hle. py_simpl.
      post_credentials Hsrv Hcode Hst Hresp Htok.
    + post_credentials Hsrv Hcode Hst Hresp Htok.
Qed.

(** [authenticate] does not write the store. *)
Lemma authenticate_same_storage : preserves same_storage (authenticate json_loads).
Proof.
  pose proof (preserves_get_access_token same_storage json_loads).
  pose proof (preserves_time_time same_storage).
  pose proof (preserves_LOG_emit same_storage).
  unfold authenticate, environ_set, LOG_debug.
  frame; reflexivity.
Qed.

(** C9. The store is written by nothing but a successful [login], and what
    it writes is the record of exactly [refresh_token] and
    [refresh_expires]: [__init__] and [authenticate] leave the store as it
    is, [login] leaves it as it is or sets under the configuration name a
    record of the in-memory refresh token and an integer, and the store
    after [login] is the same whatever the access token and its expiry
    were. *)
Theorem store_holds_refresh_record_only (s : Sys) :
  (forall (u : string) (days : Z) (en : bool),
     storage (snd (__init__ u days en (world s))) = storage (world s))
  /\ storage (world (snd (authenticate json_loads s))) = storage (world s)
  /\ (forall force_credentials : bool,
        storage (world (snd (login json_loads force_credentials s)))
        = storage (world s)
        \/ exists n : Z,
             storage (world (snd (login json_loads force_credentials s)))
             = <[config_file (self s) :=
                   [("refresh_token",
                     refresh_token (self (snd (login json_loads force_credentials s))));
                    ("refresh_expires", VInt n)]]>
                 (storage (world s)))
  /\ (forall (force_credentials : bool) (tok : value) (expires : Q),
        storage (world (snd (login json_loads force_credentials
                               (with_access tok expires s))))
        = storage (world (snd (login json_loads force_credentials s)))).
Proof.
  split; [intros u days en; rewrite init_world; reflexivity |].
  split; [apply authenticate_same_storage |]. split.
  - intros force.
    destruct (enabled (self s)) eqn:Hen.
    + rewrite login_enabled by exact Hen. rewrite run_bind.
      pose proof (login_new_refresh_token_quiet force s) as Hq.
      destruct (login_new_refresh_token json_loads force s) as [[x | tok] s1];
        destruct Hq as (Hself & Hsto & _); simpl in Hself, Hsto.
      * left. exact Hsto.
      * destruct (truthy tok) eqn:Htok.
        -- right. rewrite login_store_run by exact Htok. py_simpl.
           rewrite Hself, Hsto. eexists. reflexivity.
        -- left. unfold login_store. rewrite Htok. exact Hsto.
    + left. unfold login, getattr. rewrite run_bind. py_simpl.
      rewrite Hen. reflexivity.
  - intros force tok expires.
    rewrite (login_ignores_access json_loads force tok expires s). reflexivity.
Qed.

End Properties.

(** * The effects of each method *)

#[global] Instance login_frame_frame : Frame login_frame.
Proof.
  split.
  - intros s. repeat split.
  - unfold login_frame.
    intros s1 s2 s3 (-> & -> & -> & -> & -> & ->) (-> & -> & -> & -> & -> & ->).
    repeat split.
Qed.

#[global] Instance login_frame_trace_blind : TraceBlind login_frame.
Proof. split; intros; repeat split. Qed.

#[global] Instance authenticate_frame_frame : Frame authenticate_frame.
Proof.
  split.
  - intros s. repeat split.
  - unfold authenticate_frame.
    intros s1 s2 s3 (-> & -> & -> & -> & -> & -> & H12)
      (-> & -> & -> & -> & -> & -> & H23).
    repeat split. intros k Hk. rewrite H23, H12 by exact Hk. reflexivity.
Qed.

#[global] Instance authenticate_frame_trace_blind : TraceBlind authenticate_frame.
Proof. split; intros; repeat split. Qed.

Ltac open_request :=
  unfold _request, try_except, requests_post, raise_for_status, response_json_of,
    LOG_warning, LOG_error, LOG_emit, getattr, ask_world, modify_world, raise, lift,
    mbind, Py_bind, mret, Py_ret.

Ltac close_request :=
  repeat match goal with
         | |- context [is_HTTPError ?x] => destruct (is_HTTPError x) eqn:?; py_simpl
         end;
  first [ do 2 eexists; split; [reflexivity |]; simpl;
          first [ reflexivity
                | match goal with H : is_HTTPError _ = _ |- _ => rewrite H end;
                  reflexivity
                | right; split; [reflexivity | eexists; reflexivity] ]
        | eexists; exists []; rewrite app_nil_r; split; [reflexivity |];
          left; reflexivity ].

Section Effects.

Variable json_loads : string -> PyExn + value.

(** The effect of [_request], case by case on the reply. *)
Lemma request_effect_aux path payload s :
  exists r l,
    _request json_loads path payload s
    = (r,
       {| self := self s;
          world :=
            set_log (log (world s) ++ l)
              (set_sent
                 (sent (world s)
                  ++ [mkRequest (url (self s) ++ "/" ++ path) headers payload])
                 (world s)) |})
    /\ request_log r l.
Proof.
  open_request. py_simpl.
  destruct (server (world s) (length (sent (world s)))
              (mkRequest (url (self s) ++ "/" ++ path) headers payload))
    as [| code body]; py_simpl; [close_request |].
  destruct ((400 <=? code) && (code <? 600)); py_simpl; [close_request |].
  destruct body as [v |]; py_simpl; [| close_request].
  destruct (py_get v "status" (VStr EmptyString)) as [x | st]; py_simpl;
    [close_request |].
  destruct (eq_str st "ERROR"); py_simpl.
  - destruct (py_getitem v "response") as [x | r]; py_simpl; [close_request |].
    destruct (is_str r); py_simpl.
    + destruct (json_loads_value json_loads r) as [x | err]; py_simpl;
        [close_request |].
      destruct (py_get err "error_description" (VStr "Error acquiring token."));
        py_simpl; close_request.
    + destruct (py_get r "error_description" (VStr "Error acquiring token."));
        py_simpl; close_request.
  - destruct (py_getitem v "response"); py_simpl; close_request.
Qed.

(** X1. Every call of [_request] posts exactly one request, to
    [url/path], with the form-urlencoded content type and the payload as
    JSON, whether it returns or raises.  The instance, the clock, the
    prompts, the store and the environment stay as they are.  The log
    gets one error record naming the exception when the call raises;
    otherwise it gets nothing, or one warning when the result is the
    empty dictionary of a rejection. *)
Theorem request_effect (path : string) (payload : value) (s : Sys) :
  exists r l,
    _request json_loads path payload s
    = (r,
       {| self := self s;
          world :=
            set_log (log (world s) ++ l)
              (set_sent
                 (sent (world s)
                  ++ [mkRequest (url (self s) ++ "/" ++ path) headers payload])
                 (world s)) |})
    /\ request_log r l.
Proof. apply request_effect_aux. Qed.

(** X2. A reply with a 4xx or 5xx status makes [_request] raise
    [HTTPError], whatever the body; the error is logged as an HTTP error
    and nothing else changes but the request sent. *)
Lemma request_http_error path payload s code body :
  server (world s) (length (sent (world s)))
    (mkRequest (url (self s) ++ "/" ++ path) headers payload)
  = HttpResponse code body ->
  400 <= code < 600 ->
  _request json_loads path payload s
  = (inl (HTTPError code),
     {| self := self s;
        world :=
          set_log
            (log (world s) ++ [LogExn ERROR "HTTP error occurred: " (HTTPError code)])
            (set_sent
               (sent (world s)
                ++ [mkRequest (url (self s) ++ "/" ++ path) headers payload])
               (world s)) |}).
Proof.
  intros Hsrv Hcode.
  assert (Hc : (400 <=? code) && (code <? 600) = true).
  { apply andb_true_iff. split; [apply Z.leb_le | apply Z.ltb_lt]; lia. }
  open_request. py_simpl. rewrite Hsrv. py_simpl. rewrite Hc. reflexivity.
Qed.

(** X3. A reply outside 4xx and 5xx whose JSON object has no [response]
    member makes [_request] raise [KeyError("response")], whatever its
    [status]; the error is logged as an other error. *)
Lemma request_without_response path payload s code b :
  server (world s) (length (sent (world s)))
    (mkRequest (url (self s) ++ "/" ++ path) headers payload)
  = HttpResponse code (Some (VDict b)) ->
  ~ 400 <= code < 600 ->
  dict_lookup "response" b = None ->
  _request json_loads path payload s
  = (inl (KeyError "response"),
     {| self := self s;
        world :=
          set_log
            (log (world s)
             ++ [LogExn ERROR "Other error occurred: " (KeyError "response")])
            (set_sent
               (sent (world s)
                ++ [mkRequest (url (self s) ++ "/" ++ path) headers payload])
               (world s)) |}).
Proof.
  intros Hsrv Hcode Hresp.
  assert (Hc : (400 <=? code) && (code <? 600) = false).
  { apply andb_false_iff.
    destruct (Z.leb_spec 400 code); [right; apply Z.ltb_ge; lia | left; reflexivity]. }
  open_request. py_simpl. rewrite Hsrv. py_simpl. rewrite Hc. py_simpl.
  rewrite Hresp.
  destruct (eq_str _ "ERROR"); reflexivity.
Qed.

Ltac run_request :=
  match goal with
  | |- context [_request json_loads ?p ?q ?st] =>
      let r := fresh "r" in
      let l := fresh "l" in
      let H := fresh "Hrun" in
      let Hl := fresh "Hlog" in
      destruct (request_effect_aux p q st) as (r & l & H & Hl);
      rewrite H; clear H; py_simpl
  end.

(** X13. [authenticate] never prompts the operator, and it sends nothing
    or exactly one request: the in-memory refresh token posted to
    [refreshtoken]. *)
Lemma authenticate_requests (s : Sys) :
  prompts (world (snd (authenticate json_loads s))) = prompts (world s)
  /\ (sent (world (snd (authenticate json_loads s))) = sent (world s)
      \/ sent (world (snd (authenticate json_loads s)))
         = (sent (world s) ++ [renewal_request (self s)])%list).
Proof.
  unfold renewal_request.
  unfold authenticate, _get_access_token, time_time, py_lt, py_mul_float,
    environ_set, LOG_debug, LOG_emit,
    getattr, ask_world, modify_world, modify_self, raise, lift,
    mbind, Py_bind, mret, Py_ret.
  py_simpl.
  destruct (enabled (self s)); py_simpl; [| split; [| left]; reflexivity].
  destruct (Qltb _ _); py_simpl; [split; [| left]; reflexivity |].
  destruct (truthy (refresh_token (self s))); py_simpl;
    [| split; [| left]; reflexivity].
  destruct (as_number (refresh_expires (self s))); py_simpl;
    [| split; [| left]; reflexivity].
  destruct (Qltb _ _); py_simpl; [split; [| left]; reflexivity |].
  run_request.
  destruct r as [e | resp]; py_simpl; [split; [| right]; reflexivity |].
  destruct (py_get resp "access_token" VNone) as [e | tok]; py_simpl;
    [split; [| right]; reflexivity |].
  destruct (py_get resp "expires_in" VNone) as [e | ex]; py_simpl;
    [split; [| right]; reflexivity |].
  destruct (as_number ex); py_simpl; [| split; [| right]; reflexivity].
  destruct tok; py_simpl; try (split; [| right]; reflexivity).
  destruct (has_nul s0); py_simpl; split; try right; reflexivity.
Qed.

(** X4. [_get_refresh_token] sends exactly one request.  With a truthy
    refresh token it goes to [refreshtoken] and carries the token only
    (the user name and password given are not sent); otherwise it goes to
    [newtoken] and carries the user name and the password. *)
Lemma get_refresh_token_request rt u p s :
  sent (world (snd (_get_refresh_token json_loads rt u p s)))
  = (sent (world s)
     ++ [if truthy rt then
           mkRequest (url (self s) ++ "/refreshtoken") headers
             (VDict [("refresh_token", rt)])
         else
           mkRequest (url (self s) ++ "/newtoken") headers
             (VDict [("username", u); ("password", p)])])%list.
Proof.
  unfold _get_refresh_token, lift, mbind, Py_bind.
  destruct (truthy rt); py_simpl; run_request; destruct r; reflexivity.
Qed.

Ltac pick_shape :=
  first [ left; split; reflexivity
        | right; left; split; reflexivity
        | right; right; left; split; reflexivity
        | right; right; right; split; reflexivity ].

Ltac login_shape s l p :=
  exists l, p; rewrite ?app_nil_r;
  split; [reflexivity | split; [reflexivity | pick_shape]].

Ltac login_leaf s :=
  py_simpl; rewrite ?last_length, <- ?app_assoc; py_simpl;
  first
    [ login_shape s (@nil Request) (@nil Prompt)
    | login_shape s [renewal_request (self s)] (@nil Prompt)
    | login_shape s [credential_request (self s) (world s)]
        [Input "Username: "; Getpass "Password: "]
    | login_shape s
        [renewal_request (self s); credential_request (self s) (world s)]
        [Input "Username: "; Getpass "Password: "] ].

(** X8. The requests and prompts of one [login] have one of four
    shapes: nothing; the renewal request alone, without a prompt; the
    prompts for user name and password followed by the credential
    request; or the renewal request, then the prompts and the credential
    request.  The credentials posted are the two lines the operator
    typed. *)
Lemma login_requests (force_credentials : bool) (s : Sys) :
  exists (l : list Request) (p : list Prompt),
    sent (world (snd (login json_loads force_credentials s)))
    = (sent (world s) ++ l)%list
    /\ prompts (world (snd (login json_loads force_credentials s)))
       = (prompts (world s) ++ p)%list
    /\ ((l = [] /\ p = [])
        \/ (l = [renewal_request (self s)] /\ p = [])
        \/ (l = [credential_request (self s) (world s)]
            /\ p = [Input "Username: "; Getpass "Password: "])
        \/ (l = [renewal_request (self s); credential_request (self s) (world s)]
            /\ p = [Input "Username: "; Getpass "Password: "])).
Proof.
  unfold renewal_request, credential_request.
  unfold login, login_new_refresh_token, login_store, _save_config, save_config,
    _get_refresh_token, LOG_info, LOG_emit, time_time, py_gt, input, getpass,
    read_operator, getattr, ask_world, modify_world, modify_self, raise, lift,
    mbind, Py_bind, mret, Py_ret.
  py_simpl.
  destruct (enabled (self s)); py_simpl; [| login_leaf s].
  assert (Hnone : truthy VNone = false) by reflexivity.
  destruct force_credentials; py_simpl.
  - rewrite Hnone. py_simpl. run_request.
    destruct r as [e | resp]; py_simpl; [login_leaf s |].
    destruct (py_get resp "refresh_token" VNone) as [e | tok]; py_simpl;
      [login_leaf s |].
    destruct (truthy tok); login_leaf s.
  - destruct (truthy (refresh_token (self s))) eqn:Hrt; py_simpl.
    + destruct (as_number (refresh_expires (self s))); py_simpl; [| login_leaf s].
      destruct (Qltb _ _); py_simpl.
      * run_request.
        destruct r as [e | resp]; py_simpl; [login_leaf s |].
        destruct (py_get resp "refresh_token" VNone) as [e | tok]; py_simpl;
          [login_leaf s |].
        destruct (truthy tok) eqn:Htok; py_simpl.
        -- rewrite Htok. login_leaf s.
        -- rewrite Hnone. py_simpl. run_request.
           destruct r as [e | resp2]; py_simpl; [login_leaf s |].
           destruct (py_get resp2 "refresh_token" VNone) as [e | tok2]; py_simpl;
             [login_leaf s |].
           destruct (truthy tok2); login_leaf s.
      * rewrite Hnone. py_simpl. run_request.
        destruct r as [e | resp]; py_simpl; [login_leaf s |].
        destruct (py_get resp "refresh_token" VNone) as [e | tok]; py_simpl;
          [login_leaf s |].
        destruct (truthy tok); login_leaf s.
    + rewrite Hnone. py_simpl. run_request.
      destruct r as [e | resp]; py_simpl; [login_leaf s |].
      destruct (py_get resp "refresh_token" VNone) as [e | tok]; py_simpl;
        [login_leaf s |].
      destruct (truthy tok); login_leaf s.
Qed.

(** X9. With [force_credentials], an enabled [login] always prompts for
    user name and password and sends exactly one request, the credential
    request: the stored refresh token is not sent, whatever its state and
    whatever the server answers. *)
Lemma forced_login_requests (s : Sys) :
  enabled (self s) = true ->
  sent (world (snd (login json_loads true s)))
  = (sent (world s) ++ [credential_request (self s) (world s)])%list
  /\ prompts (world (snd (login json_loads true s)))
     = (prompts (world s) ++ [Input "Username: "; Getpass "Password: "])%list.
Proof.
  intros Hen.
  unfold credential_request.
  unfold login, login_new_refresh_token, login_store, _save_config, save_config,
    _get_refresh_token, LOG_info, LOG_emit, time_time, py_gt, input, getpass,
    read_operator, getattr, ask_world, modify_world, modify_self, raise, lift,
    mbind, Py_bind, mret, Py_ret.
  py_simpl. rewrite Hen. py_simpl.
  change (truthy VNone) with false. py_simpl. run_request.
  rewrite last_length, <- !app_assoc.
  destruct r as [e | resp]; py_simpl; [split; reflexivity |].
  destruct (py_get resp "refresh_token" VNone) as [e | tok]; py_simpl;
    [split; reflexivity |].
  destruct (truthy tok); py_simpl; split; reflexivity.
Qed.

(** X10. [login] changes no attribute but [refresh_token] (and so not
    [refresh_expires]), and it does not touch the environment, whether it
    returns or raises. *)
Lemma login_keeps_settings (force_credentials : bool) (s : Sys) :
  login_frame s (snd (login json_loads force_credentials s)).
Proof.
  revert s. change (preserves login_frame (login json_loads force_credentials)).
  pose proof (preserves_login_new_refresh_token login_frame json_loads).
  pose proof (preserves_time_time login_frame).
  pose proof (preserves_LOG_emit login_frame).
  unfold login, login_store, _save_config, save_config, LOG_info.
  frame; repeat split.
Qed.

(** X14. [authenticate] changes no attribute but the access token and
    its expiry, and no environment variable but [MLFLOW_TRACKING_TOKEN],
    whether it returns or raises. *)
Lemma authenticate_keeps_settings (s : Sys) :
  authenticate_frame s (snd (authenticate json_loads s)).
Proof.
  revert s. change (preserves authenticate_frame (authenticate json_loads)).
  pose proof (preserves_get_access_token authenticate_frame json_loads).
  pose proof (preserves_time_time authenticate_frame).
  pose proof (preserves_LOG_emit authenticate_frame).
  unfold authenticate, environ_set, LOG_debug.
  frame; repeat split; intros; simpl; try reflexivity.
  apply lookup_insert_ne. congruence.
Qed.

(** X11. A [login] that raises, for whatever reason (no token, a transport
    error, a malformed reply, a stored expiry that is not a number),
    leaves the instance, the store and the environment exactly as they
    were. *)
Lemma failed_login_changes_nothing force s e s' :
  login json_loads force s = (inl e, s') ->
  self s' = self s
  /\ storage (world s') = storage (world s)
  /\ environ (world s') = environ (world s).
Proof.
  intros H.
  destruct (enabled (self s)) eqn:Hen.
  - rewrite login_enabled in H by exact Hen.
    rewrite run_bind in H.
    pose proof (login_new_refresh_token_quiet json_loads force s) as Hq.
    destruct (login_new_refresh_token json_loads force s) as [[e1 | tok] s1].
    + injection H as _ Hs. subst s'. exact Hq.
    + destruct (truthy tok) eqn:Htok.
      * rewrite login_store_run in H by exact Htok. discriminate H.
      * unfold login_store in H. rewrite Htok in H.
        injection H as _ Hs. subst s'. exact Hq.
  - unfold login, getattr in H. rewrite run_bind in H. cbn in H.
    rewrite Hen in H. discriminate H.
Qed.

(** X12. While the access token's expiry is after the clock, an enabled
    [authenticate] returns at once: one clock reading is taken, nothing
    is sent and nothing else changes. *)
Lemma authenticate_fast_path (s : Sys) :
  enabled (self s) = true ->
  (clock (world s) (ticks (world s)) < access_expires (self s))%Q ->
  authenticate json_loads s
  = (inr tt,
     {| self := self s; world := set_ticks (S (ticks (world s))) (world s) |}).
Proof.
  intros Hen Hlt. apply Qltb_true_iff in Hlt.
  unfold authenticate, time_time, getattr, ask_world, modify_world,
    mbind, Py_bind, mret, Py_ret.
  py_simpl. rewrite Hen. py_simpl. rewrite Hlt. reflexivity.
Qed.

(** X7. When the server rejects the stored token of a silent renewal
    (a 2xx reply with status ERROR, in either encoding), [login] falls
    back on the operator: it prompts for user name and password, posts
    them as the second request, and goes on with the token of that
    reply. *)
Lemma rejected_renewal_falls_back s e code1 b1 err r code2 b2 payload tok :
  truthy (refresh_token (self s)) = true ->
  as_number (refresh_expires (self s)) = Some e ->
  (clock (world s) (ticks (world s)) < e)%Q ->
  server (world s) (length (sent (world s))) (renewal_request (self s))
  = HttpResponse code1 (Some (VDict b1)) ->
  (400 <=? code1) && (code1 <? 600) = false ->
  dict_lookup "status" b1 = Some (VStr "ERROR") ->
  dict_lookup "response" b1 = Some r ->
  (r = VDict err \/ exists t, r = VStr t /\ json_loads t = inr (VDict err)) ->
  server (world s) (S (length (sent (world s))))
    (credential_request (self s) (world s))
  = HttpResponse code2 (Some (VDict b2)) ->
  (400 <=? code2) && (code2 <? 600) = false ->
  eq_str (default (VStr EmptyString) (dict_lookup "status" b2)) "ERROR" = false ->
  dict_lookup "response" b2 = Some (VDict payload) ->
  dict_lookup "refresh_token" payload = Some tok ->
  exists s1,
    login_new_refresh_token json_loads false s = (inr tok, s1)
    /\ prompts (world s1)
       = (prompts (world s) ++ [Input "Username: "; Getpass "Password: "])%list
    /\ sent (world s1)
       = (sent (world s)
          ++ [renewal_request (self s); credential_request (self s) (world s)])%list.
Proof.
  unfold renewal_request, credential_request.
  intros Hrt He Hlt Hsrv1 Hcode1 Hst1 Hresp1 Hr Hsrv2 Hcode2 Hst2 Hresp2 Htok.
  apply Qltb_true_iff in Hlt.
  unfold login_new_refresh_token, LOG_info, LOG_emit, time_time, py_gt,
    input, getpass, read_operator, _get_refresh_token,
    getattr, ask_world, modify_world, lift, mbind, Py_bind, mret, Py_ret.
  py_simpl. rewrite Hrt. py_simpl. rewrite He, Hlt. py_simpl.
  erewrite request_rejected;
    [ | exact Hsrv1 | exact Hcode1 | exact Hst1 | exact Hresp1 | exact Hr ].
  py_simpl. change (truthy VNone) with false. py_simpl.
  rewrite !last_length.
  rewrite <- (last_length (sent (world s))
                (mkRequest (url (self s) ++ "/refreshtoken") headers
                   (VDict [("refresh_token", refresh_token (self s))]))) in Hsrv2.
  erewrite request_ok; [ | exact Hsrv2 | exact Hcode2 | exact Hst2 | exact Hresp2 ].
  py_simpl. rewrite Htok. eexists. split; [reflexivity |].
  py_simpl. rewrite <- !app_assoc. split; reflexivity.
Qed.

(** X15. Whenever an enabled [authenticate] returns after finding the
    access token stale, it has sent the renewal request, the in-memory
    access token is a string, [MLFLOW_TRACKING_TOKEN] holds that same
    string, and the new expiry is the clock reading taken on receipt plus
    0.7 times a number. *)
Lemma authenticate_refreshed_publishes (s : Sys) :
  enabled (self s) = true ->
  (access_expires (self s) <= clock (world s) (ticks (world s)))%Q ->
  fst (authenticate json_loads s) = inr tt ->
  exists (T : string) (x : Q),
    access_token (self (snd (authenticate json_loads s))) = VStr T
    /\ environ (world (snd (authenticate json_loads s))) !! "MLFLOW_TRACKING_TOKEN"
       = Some T
    /\ access_expires (self (snd (authenticate json_loads s)))
       = (clock (world s) (S (S (ticks (world s)))) + x * (7 # 10))%Q
    /\ sent (world (snd (authenticate json_loads s)))
       = (sent (world s) ++ [renewal_request (self s)])%list.
Proof.
  intros Hen Hacc. apply Qltb_false_iff in Hacc.
  unfold renewal_request.
  unfold authenticate, _get_access_token, time_time, py_lt, py_mul_float,
    environ_set, LOG_debug, LOG_emit,
    getattr, ask_world, modify_world, modify_self, raise, lift,
    mbind, Py_bind, mret, Py_ret.
  py_simpl. rewrite Hen. py_simpl. rewrite Hacc. py_simpl.
  destruct (truthy (refresh_token (self s))); py_simpl; [| discriminate].
  destruct (as_number (refresh_expires (self s))) as [q |]; py_simpl;
    [| discriminate].
  destruct (Qltb q _); py_simpl; [discriminate |].
  run_request.
  destruct r as [e | resp]; py_simpl; [discriminate |].
  destruct (py_get resp "access_token" VNone) as [e | tok]; py_simpl;
    [discriminate |].
  destruct (py_get resp "expires_in" VNone) as [e | ex]; py_simpl;
    [discriminate |].
  destruct (as_number ex) as [x |]; py_simpl; [| discriminate].
  destruct tok; py_simpl; try discriminate.
  destruct (has_nul s0); py_simpl; [discriminate |].
  intros _. exists s0, x. repeat split. apply lookup_insert_eq.
Qed.

(** X16. When the reply to the exchange carries a numeric [expires_in]
    but an [access_token] that is missing or not a string, [authenticate]
    raises [TypeError] on publishing it; the environment is unchanged,
    but the instance already holds that value as its access token, with
    the new expiry. *)
Lemma authenticate_non_string_token (s : Sys) (code : Z) (b payload : dict)
    (v : value) (x e : Q) :
  enabled (self s) = true ->
  (access_expires (self s) <= clock (world s) (ticks (world s)))%Q ->
  truthy (refresh_token (self s)) = true ->
  as_number (refresh_expires (self s)) = Some e ->
  (clock (world s) (S (ticks (world s))) <= e)%Q ->
  server (world s) (length (sent (world s))) (renewal_request (self s))
  = HttpResponse code (Some (VDict b)) ->
  (400 <=? code) && (code <? 600) = false ->
  eq_str (default (VStr EmptyString) (dict_lookup "status" b)) "ERROR" = false ->
  dict_lookup "response" b = Some (VDict payload) ->
  default VNone (dict_lookup "access_token" payload) = v ->
  is_str v = false ->
  as_number (default VNone (dict_lookup "expires_in" payload)) = Some x ->
  fst (authenticate json_loads s) = inl TypeError
  /\ access_token (self (snd (authenticate json_loads s))) = v
  /\ access_expires (self (snd (authenticate json_loads s)))
     = (clock (world s) (S (S (ticks (world s)))) + x * (7 # 10))%Q
  /\ environ (world (snd (authenticate json_loads s))) = environ (world s).
Proof.
  unfold renewal_request.
  intros Hen Hacc Htok Hexp Hfresh Hsrv Hcode Hst Hresp Hv Hstr Hx.
  apply Qltb_false_iff in Hacc, Hfresh.
  unfold authenticate, getattr, time_time, py_lt, lift, ask_world, modify_world,
    modify_self, environ_set, LOG_debug, LOG_emit, mbind, Py_bind, mret, Py_ret.
  py_simpl. rewrite Hen. py_simpl. rewrite Hacc. py_simpl. rewrite Htok. py_simpl.
  rewrite Hexp, Hfresh. py_simpl.
  erewrite get_access_token_run;
    [ | exact Hsrv | exact Hcode | exact Hst | exact Hresp | exact Hx ].
  rewrite Hv. py_simpl.
  destruct v; try discriminate Hstr; repeat split.
Qed.

(** [int] of a non-negative float is its integer part. *)
Lemma py_int_floor (q : Q) :
  (0 <= q)%Q ->
  (inject_Z (py_int q) <= q)%Q /\ (q < inject_Z (py_int q + 1))%Q.
Proof.
  destruct q as [num den]. unfold Qle, Qlt, py_int. simpl.
  intros Hnum. rewrite Z.mul_1_r in Hnum.
  rewrite Z.quot_div_nonneg by lia.
  rewrite !Z.mul_1_r.
  pose proof (Z.mul_div_le num (Z.pos den) ltac:(lia)).
  pose proof (Z.mul_succ_div_gt num (Z.pos den) ltac:(lia)).
  split; lia.
Qed.

(** X17. [_save_config] stores the token with an integer expiry [n] that
    is the integer part of [now + refresh_expire_days * 86400]: when that
    sum is not negative, [n <= sum < n + 1]. *)
Lemma saved_expiry_bounds tok s :
  (0 <= clock (world s) (ticks (world s))
        + inject_Z (refresh_expire_days (self s) * 86400))%Q ->
  exists n : Z,
    storage (world (snd (_save_config tok s))) !! config_file (self s)
    = Some [("refresh_token", tok); ("refresh_expires", VInt n)]
    /\ (inject_Z n
        <= clock (world s) (ticks (world s))
           + inject_Z (refresh_expire_days (self s) * 86400))%Q
    /\ (clock (world s) (ticks (world s))
        + inject_Z (refresh_expire_days (self s) * 86400)
        < inject_Z (n + 1))%Q.
Proof.
  intros Hpos. apply py_int_floor in Hpos as [Hle Hlt].
  eexists. split; [| split; [exact Hle | exact Hlt]].
  unfold _save_config, save_config, time_time, getattr, ask_world, modify_world,
    mbind, Py_bind, mret, Py_ret.
  py_simpl. rewrite seconds_per_day. apply lookup_insert_eq.
Qed.


(** X19. [login] does not refresh the in-memory expiry: when the expiry
    the instance was built with is before the clock, an [authenticate] on
    the same instance after a successful [login] still raises the
    [RuntimeError] of a missing login (unless the access token is still
    valid). *)
Lemma authenticate_after_login_stale_expiry force s s2 e :
  enabled (self s) = true ->
  login json_loads force s = (inr tt, s2) ->
  as_number (refresh_expires (self s)) = Some e ->
  (access_expires (self s) <= clock (world s2) (ticks (world s2)))%Q ->
  (e < clock (world s2) (S (ticks (world s2))))%Q ->
  fst (authenticate json_loads s2)
  = inl (RuntimeError "You are not logged in to MLflow. Please log in first.").
Proof.
  intros Hen Hlogin He Hacc Hlt.
  assert (Hfields : enabled (self s2) = true
                    /\ refresh_expires (self s2) = refresh_expires (self s)
                    /\ access_expires (self s2) = access_expires (self s)).
  { rewrite login_enabled in Hlogin by exact Hen.
    rewrite run_bind in Hlogin.
    pose proof (login_new_refresh_token_quiet json_loads force s) as Hq.
    destruct (login_new_refresh_token json_loads force s) as [[x | tok] s1];
      [discriminate Hlogin |].
    destruct Hq as (Hself & _). simpl in Hself.
    destruct (truthy tok) eqn:Htok.
    - rewrite login_store_run in Hlogin by exact Htok.
      injection Hlogin as Hs. subst s2. simpl. rewrite Hself.
      repeat split. exact Hen.
    - unfold login_store in Hlogin. rewrite Htok in Hlogin. discriminate Hlogin. }
  destruct Hfields as (Hen2 & Hre & Hae).
  rewrite <- Hae in Hacc. rewrite <- Hre in He.
  apply Qltb_false_iff in Hacc. apply Qltb_true_iff in Hlt.
  unfold authenticate, time_time, py_lt, getattr, ask_world, modify_world, raise,
    lift, mbind, Py_bind, mret, Py_ret.
  py_simpl. rewrite Hen2. py_simpl. rewrite Hacc. py_simpl.
  destruct (truthy (refresh_token (self s2))); py_simpl; [| reflexivity].
  rewrite He, Hlt. reflexivity.
Qed.
End Effects.

(** * The methods on the stub worlds *)

Module Runs.

Import Stub.

Abbreviation loads := MiniJson.loads.

(** [__init__] on the stub stores. *)
Example init_fresh :
  fst (__init__ base 29 true (world_of issuing ∅)) = inr fresh.
Proof. reflexivity. Qed.

Example init_logged_in :
  fst (__init__ base 29 true (world_of issuing saved)) = inr logged_in.
Proof. vm_compute. reflexivity. Qed.

Example init_disabled :
  fst (__init__ base 29 false (world_of issuing saved)) = inr disabled.
Proof. vm_compute. reflexivity. Qed.

Example init_without_url :
  fst (__init__ EmptyString 29 true (world_of issuing ∅))
  = inl (AssertionError "Please provide a URL for the authentication server.").
Proof. reflexivity. Qed.

(** A first login asks the operator, posts the credentials to [newtoken]
    and stores the token with the expiry 1000.5 + 29 days, truncated. *)
Example first_login_run :
  let s' := snd (login loads false first_login) in
  fst (login loads false first_login) = inr tt
  /\ prompts (world s') = [Input "Username: "; Getpass "Password: "]
  /\ sent (world s')
     = [mkRequest (base ++ "/newtoken") headers
          (VDict [("username", VStr "alice"); ("password", VStr "secret")])]
  /\ storage (world s') !! "mlflow-token.json"
     = Some [("refresh_token", VStr "R1"); ("refresh_expires", VInt 2506600)].
Proof. vm_compute. repeat split. Qed.

(** With a stored token that is still valid, [login] renews it silently. *)
Example silent_renewal_run :
  let s' := snd (login loads false training) in
  fst (login loads false training) = inr tt
  /\ prompts (world s') = []
  /\ sent (world s')
     = [mkRequest (base ++ "/refreshtoken") headers
          (VDict [("refresh_token", VStr "R0")])]
  /\ refresh_token (self s') = VStr "R2"
  /\ storage (world s') !! "mlflow-token.json"
     = Some [("refresh_token", VStr "R2"); ("refresh_expires", VInt 2506601)].
Proof. vm_compute. repeat split. Qed.

(** [force_credentials] goes to the operator even then. *)
Example forced_credentials_run :
  let s' := snd (login loads true training) in
  fst (login loads true training) = inr tt
  /\ prompts (world s') = [Input "Username: "; Getpass "Password: "]
  /\ refresh_token (self s') = VStr "R1".
Proof. vm_compute. repeat split. Qed.

(** A second [authenticate] within the validity of the access token sends
    nothing. *)
Example authenticate_twice_run :
  let s1 := snd (authenticate loads training) in
  let s2 := snd (authenticate loads s1) in
  fst (authenticate loads s1) = inr tt
  /\ length (sent (world s1)) = 1%nat
  /\ sent (world s2) = sent (world s1)
  /\ self s2 = self s1.
Proof. vm_compute. repeat split. Qed.

End Runs.

(** * The claims on the stub worlds *)

(** C1, where the claim as stated fails: the first login gets the token
    R1 from the operator's credentials and returns, but the in-memory
    expiry is not [now + refresh_expire_days * 86400] (it is still 0), and
    the stored expiry is that sum truncated (2506600 for 2506600.5). *)
Lemma login_expiry_counterexample :
  let s := Stub.first_login in
  let s1 := snd (login_new_refresh_token MiniJson.loads false s) in
  let s2 := snd (login MiniJson.loads false s) in
  let expiry :=
    (clock (world s1) (ticks (world s1))
     + inject_Z (refresh_expire_days (self s) * 86400))%Q in
  enabled (self s) = true
  /\ login_new_refresh_token MiniJson.loads false s = (inr (VStr "R1"), s1)
  /\ login MiniJson.loads false s = (inr tt, s2)
  /\ ~ (refresh_token (self s2) = VStr "R1"
        /\ (exists e, as_number (refresh_expires (self s2)) = Some e
                      /\ (e == expiry)%Q)
        /\ (exists v e,
              storage (world s2) !! config_file (self s)
              = Some [("refresh_token", VStr "R1"); ("refresh_expires", v)]
              /\ as_number v = Some e /\ (e == expiry)%Q)).
Proof.
  cbv zeta. split; [reflexivity |]. split; [vm_compute; reflexivity |].
  split; [vm_compute; reflexivity |].
  intros (_ & (e & He & Heq) & _).
  vm_compute in He. injection He as <-.
  vm_compute in Heq. discriminate Heq.
Qed.

(** The stored expiry of that login is not the sum either, only its
    integer part. *)
Example login_stored_expiry_truncated :
  let s := Stub.first_login in
  let s2 := snd (login MiniJson.loads false s) in
  storage (world s2) !! config_file (self s)
  = Some [("refresh_token", VStr "R1"); ("refresh_expires", VInt 2506600)]
  /\ ~ (inject_Z 2506600
        == clock (world s) 0 + inject_Z (refresh_expire_days (self s) * 86400))%Q.
Proof.
  cbv zeta. split; [vm_compute; reflexivity |].
  intros H. vm_compute in H. discriminate H.
Qed.

Lemma login_stores_new_token_witness :
  exists s2,
    login MiniJson.loads false Stub.first_login = (inr tt, s2)
    /\ refresh_token (self s2) = VStr "R1"
    /\ storage (world s2)
       = <[config_file (self Stub.first_login) :=
             [("refresh_token", VStr "R1");
              ("refresh_expires",
               VInt (py_int
                       (clock
                          (world (snd (login_new_refresh_token MiniJson.loads false
                                         Stub.first_login)))
                          (ticks
                             (world (snd (login_new_refresh_token MiniJson.loads
                                            false Stub.first_login))))
                        + inject_Z (refresh_expire_days (self Stub.first_login)
                                    * 86400))))]]>
           (storage (world Stub.first_login)).
Proof.
  apply (login_stores_new_token MiniJson.loads false Stub.first_login
           (snd (login_new_refresh_token MiniJson.loads false Stub.first_login))
           (VStr "R1")).
  - reflexivity.
  - vm_compute. reflexivity.
  - reflexivity.
Defined.

(** C2, at the failing input: the stored token is valid, the server
    answers the exchange with a soft rejection (in either encoding), and
    [authenticate] raises [TypeError], not the [RuntimeError] of a missing
    login; the request was sent and the description logged. *)
Example authenticate_soft_rejection_raises_TypeError :
  fst (authenticate MiniJson.loads Stub.revoked) = inl TypeError
  /\ fst (authenticate MiniJson.loads Stub.revoked_object) = inl TypeError
  /\ length (sent (world (snd (authenticate MiniJson.loads Stub.revoked)))) = 1%nat
  /\ log (world (snd (authenticate MiniJson.loads Stub.revoked)))
     = [LogMsg WARNING (VStr "Invalid user credentials")].
Proof. vm_compute. repeat split. Qed.

(** C3, at the failing input: constructed on an empty store, the instance
    satisfies the invariant; after a successful [login] it holds the token
    R1 with the expiry 0, and [authenticate] on it reports that no login
    took place. *)
Example login_breaks_refresh_invariant :
  let s' := snd (login MiniJson.loads false Stub.first_login) in
  fst (__init__ Stub.base 29 true (world Stub.first_login))
  = inr (self Stub.first_login)
  /\ refresh_invariant (self Stub.first_login) = true
  /\ fst (login MiniJson.loads false Stub.first_login) = inr tt
  /\ refresh_token (self s') = VStr "R1"
  /\ refresh_expires (self s') = VInt 0
  /\ refresh_invariant (self s') = false
  /\ fst (authenticate MiniJson.loads s')
     = inl (RuntimeError "You are not logged in to MLflow. Please log in first.").
Proof. vm_compute. repeat split. Qed.

Lemma authenticate_fetches_access_token_witness :
  exists s',
    authenticate MiniJson.loads Stub.training = (inr tt, s')
    /\ access_token (self s') = VStr "T"
    /\ (access_expires (self s')
        == clock (world Stub.training) (S (S (ticks (world Stub.training))))
           + (7 # 10) * inject_Z 1000)%Q
    /\ environ (world s') !! "MLFLOW_TRACKING_TOKEN" = Some "T".
Proof.
  apply (authenticate_fetches_access_token MiniJson.loads Stub.training 200
           [("status", VStr "OK");
            ("response", VDict [("refresh_token", VStr "R2");
                                ("access_token", VStr "T");
                                ("expires_in", VInt 1000)])]
           [("refresh_token", VStr "R2"); ("access_token", VStr "T");
            ("expires_in", VInt 1000)]
           "T" 1000 (inject_Z 5000)).
  - reflexivity.
  - unfold Qle. simpl. lia.
  - reflexivity.
  - reflexivity.
  - unfold Qle. simpl. lia.
  - reflexivity.
  - lia.
  - reflexivity.
  - reflexivity.
  - reflexivity.
  - reflexivity.
  - reflexivity.
Defined.

Lemma authenticate_without_valid_refresh_token_witness :
  exists n,
    authenticate MiniJson.loads Stub.first_login
    = (inl (RuntimeError "You are not logged in to MLflow. Please log in first."),
       {| self := self Stub.first_login;
          world := set_ticks n (world Stub.first_login) |}).
Proof.
  apply (authenticate_without_valid_refresh_token MiniJson.loads Stub.first_login).
  - reflexivity.
  - unfold Qle. simpl. lia.
  - left. reflexivity.
Defined.

Lemma login_without_token_fails_witness :
  login MiniJson.loads false Stub.turned_down
  = (inl (RuntimeError "Failed to log in. Please try again."),
     snd (login_new_refresh_token MiniJson.loads false Stub.turned_down))
  /\ storage (world (snd (login_new_refresh_token MiniJson.loads false
                            Stub.turned_down)))
     = storage (world Stub.turned_down)
  /\ self (snd (login_new_refresh_token MiniJson.loads false Stub.turned_down))
     = self Stub.turned_down.
Proof.
  apply (login_without_token_fails MiniJson.loads false Stub.turned_down
           (snd (login_new_refresh_token MiniJson.loads false Stub.turned_down))
           VNone).
  - reflexivity.
  - vm_compute. reflexivity.
  - reflexivity.
Defined.

Lemma request_soft_rejection_witness :
  _request MiniJson.loads "newtoken"
    (VDict [("username", VStr "alice"); ("password", VStr "wrong")])
    Stub.turned_down
  = (inr (VDict []),
     {| self := self Stub.turned_down;
        world :=
          set_log
            (log (world Stub.turned_down)
             ++ [LogMsg WARNING
                   (default (VStr "Error acquiring token.")
                      (dict_lookup "error_description"
                         [("error", VStr "invalid_grant");
                          ("error_description", VStr "Invalid user credentials")]))])
            (set_sent
               (sent (world Stub.turned_down)
                ++ [mkRequest (url (self Stub.turned_down) ++ "/" ++ "newtoken")
                      headers
                      (VDict [("username", VStr "alice");
                              ("password", VStr "wrong")])])
               (world Stub.turned_down)) |}).
Proof.
  apply (request_soft_rejection MiniJson.loads "newtoken"
           (VDict [("username", VStr "alice"); ("password", VStr "wrong")])
           Stub.turned_down 200
           [("status", VStr "ERROR");
            ("response",
             VStr ("{" ++ MiniJson.quoted "error" ++ ": "
                   ++ MiniJson.quoted "invalid_grant" ++ ", "
                   ++ MiniJson.quoted "error_description" ++ ": "
                   ++ MiniJson.quoted "Invalid user credentials" ++ "}"))]
           [("error", VStr "invalid_grant");
            ("error_description", VStr "Invalid user credentials")]
           (VStr ("{" ++ MiniJson.quoted "error" ++ ": "
                  ++ MiniJson.quoted "invalid_grant" ++ ", "
                  ++ MiniJson.quoted "error_description" ++ ": "
                  ++ MiniJson.quoted "Invalid user credentials" ++ "}"))).
  - reflexivity.
  - lia.
  - reflexivity.
  - reflexivity.
  - right. eexists. split; [reflexivity |]. vm_compute. reflexivity.
Defined.

Lemma disabled_instance_is_inert_witness :
  call MiniJson.loads (CallLogin true)
    {| self := Stub.disabled; world := world Stub.training |}
  = (inr tt, {| self := Stub.disabled; world := world Stub.training |})
  /\ run MiniJson.loads [CallAuthenticate; CallLogin false; CallAuthenticate]
       {| self := Stub.disabled; world := world Stub.training |}
     = {| self := Stub.disabled; world := world Stub.training |}.
Proof.
  destruct (disabled_instance_is_inert MiniJson.loads Stub.base 29
              (world Stub.training) Stub.disabled)
    with (w' := world Stub.training) as [Hcall Hrun].
  - vm_compute. reflexivity.
  - split; [apply Hcall | apply Hrun].
Defined.

(** * The effects on the stub worlds *)

Lemma request_http_error_witness :
  fst (_request MiniJson.loads "refreshtoken"
         (VDict [("refresh_token", VStr "R0")]) Stub.outage)
  = inl (HTTPError 503).
Proof.
  rewrite (request_http_error MiniJson.loads "refreshtoken"
             (VDict [("refresh_token", VStr "R0")]) Stub.outage 503 None).
  - reflexivity.
  - reflexivity.
  - lia.
Defined.

Lemma request_without_response_witness :
  fst (_request MiniJson.loads "refreshtoken"
         (VDict [("refresh_token", VStr "R0")]) Stub.careless_run)
  = inl (KeyError "response").
Proof.
  rewrite (request_without_response MiniJson.loads "refreshtoken"
             (VDict [("refresh_token", VStr "R0")]) Stub.careless_run 200
             [("status", VStr "OK")]).
  - reflexivity.
  - reflexivity.
  - lia.
  - reflexivity.
Defined.

Lemma silent_renewal_witness :
  exists s1,
    login_new_refresh_token MiniJson.loads false Stub.training
    = (inr (VStr "R2"), s1)
    /\ prompts (world s1) = prompts (world Stub.training)
    /\ sent (world s1)
       = (sent (world Stub.training)
          ++ [mkRequest (url (self Stub.training) ++ "/refreshtoken") headers
                (VDict [("refresh_token", refresh_token (self Stub.training))])])%list.
Proof.
  apply (silent_renewal MiniJson.loads Stub.training 200
           [("status", VStr "OK");
            ("response", VDict [("refresh_token", VStr "R2");
                                ("access_token", VStr "T");
                                ("expires_in", VInt 1000)])]
           [("refresh_token", VStr "R2"); ("access_token", VStr "T");
            ("expires_in", VInt 1000)]
           (VStr "R2") (inject_Z 5000)).
  - reflexivity.
  - reflexivity.
  - unfold Qlt. simpl. lia.
  - reflexivity.
  - reflexivity.
  - reflexivity.
  - reflexivity.
  - reflexivity.
  - reflexivity.
Defined.

Lemma credential_prompt_witness :
  exists s1,
    login_new_refresh_token MiniJson.loads false Stub.first_login
    = (inr (VStr "R1"), s1)
    /\ prompts (world s1)
       = (prompts (world Stub.first_login)
          ++ [Input "Username: "; Getpass "Password: "])%list
    /\ sent (world s1)
       = (sent (world Stub.first_login)
          ++ [mkRequest (url (self Stub.first_login) ++ "/newtoken") headers
                (VDict [("username",
                         VStr (operator (world Stub.first_login)
                                 (length (prompts (world Stub.first_login)))));
                        ("password",
                         VStr (operator (world Stub.first_login)
                                 (S (length (prompts (world Stub.first_login))))))])])%list.
Proof.
  apply (credential_prompt MiniJson.loads false Stub.first_login 200
           [("status", VStr "OK");
            ("response", VDict [("refresh_token", VStr "R1")])]
           [("refresh_token", VStr "R1")] (VStr "R1")).
  - right. left. reflexivity.
  - reflexivity.
  - reflexivity.
  - reflexivity.
  - reflexivity.
  - reflexivity.
Defined.

Lemma rejected_renewal_falls_back_witness :
  exists s1,
    login_new_refresh_token MiniJson.loads false Stub.refused
    = (inr (VStr "R1"), s1)
    /\ prompts (world s1)
       = (prompts (world Stub.refused)
          ++ [Input "Username: "; Getpass "Password: "])%list
    /\ sent (world s1)
       = (sent (world Stub.refused)
          ++ [renewal_request (self Stub.refused);
              credential_request (self Stub.refused) (world Stub.refused)])%list.
Proof.
  apply (rejected_renewal_falls_back MiniJson.loads Stub.refused (inject_Z 5000)
           200
           [("status", VStr "ERROR");
            ("response",
             VStr ("{" ++ MiniJson.quoted "error" ++ ": "
                   ++ MiniJson.quoted "invalid_grant" ++ ", "
                   ++ MiniJson.quoted "error_description" ++ ": "
                   ++ MiniJson.quoted "Token is not active" ++ "}"))]
           [("error", VStr "invalid_grant");
            ("error_description", VStr "Token is not active")]
           (VStr ("{" ++ MiniJson.quoted "error" ++ ": "
                  ++ MiniJson.quoted "invalid_grant" ++ ", "
                  ++ MiniJson.quoted "error_description" ++ ": "
                  ++ MiniJson.quoted "Token is not active" ++ "}"))
           200
           [("status", VStr "OK");
            ("response", VDict [("refresh_token", VStr "R1")])]
           [("refresh_token", VStr "R1")] (VStr "R1")).
  - reflexivity.
  - reflexivity.
  - unfold Qlt. simpl. lia.
  - reflexivity.
  - reflexivity.
  - reflexivity.
  - reflexivity.
  - right. eexists. split; [reflexivity |]. vm_compute. reflexivity.
  - reflexivity.
  - reflexivity.
  - reflexivity.
  - reflexivity.
  - reflexivity.
Defined.

Lemma forced_login_requests_witness :
  sent (world (snd (login MiniJson.loads true Stub.training)))
  = (sent (world Stub.training)
     ++ [credential_request (self Stub.training) (world Stub.training)])%list
  /\ prompts (world (snd (login MiniJson.loads true Stub.training)))
     = (prompts (world Stub.training)
        ++ [Input "Username: "; Getpass "Password: "])%list.
Proof.
  apply (forced_login_requests MiniJson.loads Stub.training).
  reflexivity.
Defined.

Lemma failed_login_changes_nothing_witness :
  self (snd (login MiniJson.loads false Stub.outage)) = self Stub.outage
  /\ storage (world (snd (login MiniJson.loads false Stub.outage)))
     = storage (world Stub.outage)
  /\ environ (world (snd (login MiniJson.loads false Stub.outage)))
     = environ (world Stub.outage).
Proof.
  apply (failed_login_changes_nothing MiniJson.loads false Stub.outage
           (HTTPError 503) (snd (login MiniJson.loads false Stub.outage))).
  vm_compute. reflexivity.
Defined.

Lemma authenticate_fast_path_witness :
  authenticate MiniJson.loads Stub.authenticated
  = (inr tt,
     {| self := self Stub.authenticated;
        world := set_ticks (S (ticks (world Stub.authenticated)))
                   (world Stub.authenticated) |}).
Proof.
  apply (authenticate_fast_path MiniJson.loads Stub.authenticated).
  - reflexivity.
  - unfold Qlt. simpl. lia.
Defined.

Lemma authenticate_refreshed_publishes_witness :
  exists (T : string) (x : Q),
    access_token (self (snd (authenticate MiniJson.loads Stub.training))) = VStr T
    /\ environ (world (snd (authenticate MiniJson.loads Stub.training)))
         !! "MLFLOW_TRACKING_TOKEN"
       = Some T
    /\ access_expires (self (snd (authenticate MiniJson.loads Stub.training)))
       = (clock (world Stub.training) (S (S (ticks (world Stub.training))))
          + x * (7 # 10))%Q
    /\ sent (world (snd (authenticate MiniJson.loads Stub.training)))
       = (sent (world Stub.training) ++ [renewal_request (self Stub.training)])%list.
Proof.
  apply (authenticate_refreshed_publishes MiniJson.loads Stub.training).
  - reflexivity.
  - unfold Qle. simpl. lia.
  - vm_compute. reflexivity.
Defined.

Lemma authenticate_non_string_token_witness :
  fst (authenticate MiniJson.loads Stub.tokenless_run) = inl TypeError
  /\ access_token (self (snd (authenticate MiniJson.loads Stub.tokenless_run)))
     = VNone
  /\ access_expires (self (snd (authenticate MiniJson.loads Stub.tokenless_run)))
     = (clock (world Stub.tokenless_run)
          (S (S (ticks (world Stub.tokenless_run))))
        + inject_Z 1000 * (7 # 10))%Q
  /\ environ (world (snd (authenticate MiniJson.loads Stub.tokenless_run)))
     = environ (world Stub.tokenless_run).
Proof.
  apply (authenticate_non_string_token MiniJson.loads Stub.tokenless_run 200
           [("status", VStr "OK");
            ("response", VDict [("expires_in", VInt 1000)])]
           [("expires_in", VInt 1000)] VNone (inject_Z 1000) (inject_Z 5000)).
  - reflexivity.
  - unfold Qle. simpl. lia.
  - reflexivity.
  - reflexivity.
  - unfold Qle. simpl. lia.
  - reflexivity.
  - reflexivity.
  - reflexivity.
  - reflexivity.
  - reflexivity.
  - reflexivity.
  - reflexivity.
Defined.

Lemma saved_expiry_bounds_witness :
  exists n : Z,
    storage (world (snd (_save_config (VStr "R1") Stub.first_login)))
      !! config_file (self Stub.first_login)
    = Some [("refresh_token", VStr "R1"); ("refresh_expires", VInt n)]
    /\ (inject_Z n
        <= clock (world Stub.first_login) (ticks (world Stub.first_login))
           + inject_Z (refresh_expire_days (self Stub.first_login) * 86400))%Q
    /\ (clock (world Stub.first_login) (ticks (world Stub.first_login))
        + inject_Z (refresh_expire_days (self Stub.first_login) * 86400)
        < inject_Z (n + 1))%Q.
Proof.
  apply (saved_expiry_bounds (VStr "R1") Stub.first_login).
  unfold Qle. simpl. lia.
Defined.


Lemma authenticate_after_login_stale_expiry_witness :
  fst (authenticate MiniJson.loads
         (snd (login MiniJson.loads false Stub.first_login)))
  = inl (RuntimeError "You are not logged in to MLflow. Please log in first.").
Proof.
  apply (authenticate_after_login_stale_expiry MiniJson.loads false
           Stub.first_login (snd (login MiniJson.loads false Stub.first_login))
           (inject_Z 0)).
  - reflexivity.
  - vm_compute. reflexivity.
  - reflexivity.
  - apply Qle_bool_iff. vm_compute. reflexivity.
  - apply Qltb_true_iff. vm_compute. reflexivity.
Defined.
